(** * Card asset scripts: slicer, analyzer and verifier

    A shallow embedding of the three scripts under [scripts/]
    ([verify_cards.py], [slice_cards.py], [analyze_cards.py]) and the
    properties of their naming scheme, their pixel classification and their
    de-duplicating write loop. *)

From Stdlib Require Import Ascii.
From stdpp Require Import gmap strings list pretty.

Local Open Scope Z_scope.

(** ** Python runtime fragments used by the scripts *)

Module Py.

(** The exceptions the modelled fragments can raise. *)
Inductive exn :=
| IndexError
| ValueError
| FileNotFoundError.

(** A computation either returns a value or raises. *)
Inductive result (A : Type) :=
| Ok (a : A)
| Raise (e : exn).
Global Arguments Ok {A} a.
Global Arguments Raise {A} e.

Global Instance exn_eq_dec : EqDecision exn.
Proof. solve_decision. Defined.
Global Instance result_eq_dec {A} `{EqDecision A} : EqDecision (result A).
Proof. solve_decision. Defined.

Global Instance result_ret : MRet result := λ A a, Ok a.
Global Instance result_bind : MBind result := λ A B k m,
  match m with
  | Ok a => k a
  | Raise e => Raise e
  end.

(** [for x in xs: st = body(x, st)], stopping at the first exception. *)
Fixpoint for_each {A S} (xs : list A) (body : A → S → result S) (st : S)
  : result S :=
  match xs with
  | [] => Ok st
  | x :: xs' => body x st ≫= for_each xs' body
  end.

(** [l[i]] for a Python list: negative indices count from the end, and an
    index outside [-len, len) raises [IndexError]. *)
Definition index {A} (l : list A) (i : Z) : result A :=
  let n := Z.of_nat (length l) in
  let j := if i <? 0 then n + i else i in
  if (0 <=? j) && (j <? n)
  then match l !! Z.to_nat j with
       | Some a => Ok a
       | None => Raise IndexError
       end
  else Raise IndexError.

(** [range(lo, hi)] and [range(lo, hi, step)] for a positive step. *)
Definition range (lo hi : Z) : list Z := seqZ lo (hi - lo).

Definition range_step (lo hi step : Z) : list Z :=
  (λ k, lo + step * k) <$> seqZ 0 ((hi - lo + step - 1) `div` step).

(** [str(n)] of an integer. *)
Definition str (n : Z) : string := pretty n.

(** [f"{n:wd}"]: decimal, right-aligned with spaces to width [w]. *)
Fixpoint spaces (k : nat) : string :=
  match k with
  | O => ""
  | S k' => " " +:+ spaces k'
  end.

Definition format_d (w : nat) (n : Z) : string :=
  let s := str n in
  spaces (w - String.length s) +:+ s.

(** [len(s)] of a set of strings. *)
Definition len_set (s : gset string) : Z := Z.of_nat (size s).

(** [str(b)] of a boolean. *)
Definition str_bool (b : bool) : string := if b then "True" else "False".

(** The newline character, written [\n] in the scripts. *)
Definition nl : string := String (ascii_of_nat 10) "".

(** [s * k] for a string [s]. *)
Fixpoint repeat_str (s : string) (k : nat) : string :=
  match k with
  | O => ""
  | S k' => s +:+ repeat_str s k'
  end.

(** [os.path.join(a, b)] on POSIX, two arguments. *)
Definition starts_with_slash (s : string) : bool :=
  match s with
  | String c _ => bool_decide (c = "/"%char)
  | EmptyString => false
  end.

Fixpoint ends_with_slash (s : string) : bool :=
  match s with
  | EmptyString => false
  | String c EmptyString => bool_decide (c = "/"%char)
  | String _ s' => ends_with_slash s'
  end.

Definition path_join (a b : string) : string :=
  if starts_with_slash b then b
  else if bool_decide (a = "") || ends_with_slash a then a +:+ b
  else a +:+ "/" +:+ b.

End Py.

(** ** The fragment of Pillow the scripts call

    Images are modelled by their mode, their size and their pixels in
    scanline order, as [Image.getdata] lists them. A pixel is the tuple
    [(r, g, b, a)]; an image of mode [RGB] has no alpha band, and no
    operation below reads the fourth component of its pixels. *)

Module PIL.

Definition pixel : Type := Z * Z * Z * Z.

Inductive mode :=
| RGB
| RGBA.

Record image := Image {
  im_mode : mode;
  width : nat;
  height : nat;
  getdata : list pixel;
}.

Global Instance mode_eq_dec : EqDecision mode.
Proof. solve_decision. Defined.
Global Instance image_eq_dec : EqDecision image.
Proof. solve_decision. Defined.

Definition box : Type := Z * Z * Z * Z.

(** [Image.open(path)]: the decoded image stored at [path]. *)
Definition open (fs : gmap string image) (path : string) : Py.result image :=
  match fs !! path with
  | Some img => Py.Ok img
  | None => Py.Raise Py.FileNotFoundError
  end.

(** [img.size] *)
Definition size (img : image) : Z * Z :=
  (Z.of_nat (width img), Z.of_nat (height img)).

Definition in_bounds (img : image) (x y : Z) : bool :=
  (0 <=? x) && (x <? Z.of_nat (width img)) &&
  (0 <=? y) && (y <? Z.of_nat (height img)).

(** The pixel stored at column [x] of scanline [y], if there is one. *)
Definition pixel_at (img : image) (x y : Z) : option pixel :=
  if in_bounds img x y
  then getdata img !! Z.to_nat (y * Z.of_nat (width img) + x)
  else None.

(** [img.getpixel((x, y))]: negative coordinates count from the far edge,
    and a coordinate outside the image raises [IndexError]. *)
Definition getpixel (img : image) (xy : Z * Z) : Py.result pixel :=
  let '(x, y) := xy in
  let x := if x <? 0 then Z.of_nat (width img) + x else x in
  let y := if y <? 0 then Z.of_nat (height img) + y else y in
  match pixel_at img x y with
  | Some p => Py.Ok p
  | None => Py.Raise Py.IndexError
  end.

Definition opaque (p : pixel) : pixel :=
  let '(r, g, b, _) := p in (r, g, b, 255).

(** [img.convert(m)], between [RGB] and [RGBA]: a copy in mode [m];
    an alpha band that is added is fully opaque. *)
Definition convert (img : image) (m : mode) : image :=
  match im_mode img, m with
  | RGBA, RGBA => img
  | _, _ => Image m (width img) (height img) (opaque <$> getdata img)
  end.

(** [img.putdata(data)]: the pixels are replaced from the upper left
    corner on; pixels beyond the end of [data] keep their value. *)
Definition putdata (img : image) (data : list pixel) : image :=
  let n := length (getdata img) in
  Image (im_mode img) (width img) (height img)
        (take n data ++ drop (length data) (getdata img)).

(** What [crop] puts where the box leaves the image. *)
Definition fill (m : mode) : pixel :=
  match m with
  | RGB => (0, 0, 0, 255)
  | RGBA => (0, 0, 0, 0)
  end.

(** [img.crop((left, upper, right, lower))], the box written
    [(x0, y0, x1, y1)]: the region of that size, with [fill] where it
    leaves the image; a box whose right or lower edge lies before its
    left or upper edge raises [ValueError]. *)
Definition crop (img : image) (b : box) : Py.result image :=
  let '(x0, y0, x1, y1) := b in
  if (x1 <? x0) || (y1 <? y0) then Py.Raise Py.ValueError
  else
    let px x y := default (fill (im_mode img)) (pixel_at img x y) in
    Py.Ok (Image (im_mode img)
                 (Z.to_nat (x1 - x0)) (Z.to_nat (y1 - y0))
                 (y ← seqZ y0 (y1 - y0);
                  (λ x, px x y) <$> seqZ x0 (x1 - x0))).

(** The pixels [getbbox] counts as content: for [RGBA] those whose alpha
    is not zero, for [RGB] those with a non-zero band. *)
Definition nonzero (m : mode) (p : pixel) : bool :=
  let '(r, g, b, a) := p in
  match m with
  | RGBA => negb (a =? 0)
  | RGB => negb ((r =? 0) && (g =? 0) && (b =? 0))
  end.

Definition content_coords (img : image) : list (Z * Z) :=
  y ← seqZ 0 (Z.of_nat (height img));
  x ← seqZ 0 (Z.of_nat (width img));
  match pixel_at img x y with
  | Some p => if nonzero (im_mode img) p then [(x, y)] else []
  | None => []
  end.

(** [img.getbbox()]: [None] when the image has no content, and otherwise
    the box [(left, upper, right, lower)] around it, right and lower
    edges exclusive. *)
Definition getbbox (img : image) : option box :=
  match content_coords img with
  | [] => None
  | (x, y) :: cs =>
      Some (foldr Z.min x cs.*1, foldr Z.min y cs.*2,
            foldr Z.max x cs.*1 + 1, foldr Z.max y cs.*2 + 1)
  end.

End PIL.

(** ** verify_cards.py *)

Module Verify.

Definition CARD_NAMES : list string :=
  ["A"; "2"; "3"; "4"; "5"; "6"; "7"; "8"; "9"; "10"; "J"; "Q"; "K"].

Definition SUITS : list string := ["spades"; "hearts"; "diamonds"; "clubs"].

(** Convert contract card ID (1-52) to filename. *)
Definition card_id_to_filename (card_id : Z) : Py.result string :=
  let rank_index := (card_id - 1) `mod` 13 in
  let suit_index := (card_id - 1) `div` 13 in
  rank ← Py.index CARD_NAMES rank_index;
  suit ← Py.index SUITS suit_index;
  Py.Ok (rank +:+ "_" +:+ suit +:+ ".png").

(** The file system as the verifier sees it: the set of paths at which a
    file exists. *)
Definition path_exists (fs : gset string) (path : string) : bool :=
  bool_decide (path ∈ fs).

Definition cards_dir : string := "../public/cards".
Definition test_cards : list Z := [1; 7; 13; 14; 27; 33; 40; 52].

(** The loop of [main] that collects the [(card_id, filename)] pairs whose
    file is absent. *)
Definition check_card (fs : gset string) (card_id : Z)
    (missing : list (Z * string)) : Py.result (list (Z * string)) :=
  filename ← card_id_to_filename card_id;
  let filepath := Py.path_join cards_dir filename in
  if negb (path_exists fs filepath)
  then Py.Ok (missing ++ [(card_id, filename)])
  else Py.Ok missing.

Definition find_missing (fs : gset string) : Py.result (list (Z * string)) :=
  Py.for_each (Py.range 1 53) (check_card fs) [].

Definition missing_line (entry : Z * string) : string :=
  "  Card ID " +:+ Py.str entry.1 +:+ ": " +:+ entry.2.

(** The summary printed after the loop. *)
Definition report (missing : list (Z * string)) : list string :=
  match missing with
  | [] => [Py.nl +:+ "✅ All 52 cards are present!"]
  | _ :: _ =>
      (Py.nl +:+ "❌ Missing " +:+ Py.str (Z.of_nat (length missing)) +:+ " cards:")
        :: (missing_line <$> missing)
  end.

Definition spot_check_line (fs : gset string) (card_id : Z)
    (out : list string) : Py.result (list string) :=
  filename ← card_id_to_filename card_id;
  let exists_ := path_exists fs (Py.path_join cards_dir filename) in
  let status := if exists_ then "✅" else "❌" in
  Py.Ok (out ++ [status +:+ " Card ID " +:+ Py.format_d 2 card_id +:+ " → " +:+ filename]).

(** [main]: the lines it prints, one entry per [print] call, or the
    exception that ends it. *)
Definition main (fs : gset string) : Py.result (list string) :=
  let out :=
    [ Py.repeat_str "=" 60; "Card Image Verification"; Py.repeat_str "=" 60;
      Py.nl +:+ "🐛 Testing the bug scenario:"; Py.repeat_str "-" 60 ] in
  let dealer_card_1 := 7 in
  let dealer_card_2 := 33 in
  file1 ← card_id_to_filename dealer_card_1;
  file2 ← card_id_to_filename dealer_card_2;
  let out := out ++
    [ "Dealer Card 1 (ID " +:+ Py.str dealer_card_1 +:+ "):";
      "  Expected: 7 of spades";
      "  Filename: " +:+ file1;
      "  File exists: " +:+ Py.str_bool (path_exists fs (Py.path_join cards_dir file1));
      Py.nl +:+ "Dealer Card 2 (ID " +:+ Py.str dealer_card_2 +:+ "):";
      "  Expected: 7 of diamonds";
      "  Filename: " +:+ file2;
      "  File exists: " +:+ Py.str_bool (path_exists fs (Py.path_join cards_dir file2));
      Py.nl +:+ "✅ Both cards should show 7, totaling 14 (or 21 with soft ace)";
      Py.nl +:+ Py.repeat_str "=" 60;
      "Verifying all 52 playing cards...";
      Py.repeat_str "=" 60 ] in
  missing ← find_missing fs;
  let out := out ++ report missing ++
    [ Py.nl +:+ Py.repeat_str "=" 60;
      "Sample Card ID to Filename Mappings:";
      Py.repeat_str "=" 60 ] in
  Py.for_each test_cards (spot_check_line fs) out.

End Verify.


(** ** slice_cards.py *)

Module Slice.
Import PIL.

Definition INPUT_IMAGE : string := "playing_cards_full_set.jpg".
Definition OUTPUT_DIR : string := "../public/cards".
Definition ROWS : Z := 6.
Definition COLS : Z := 9.

(** Card naming: the layout of the sprite sheet, left to right, top to
    bottom. *)
Definition CARD_MAP : list (list string) :=
  [ ["K_diamonds"; "K_spades"; "K_hearts"; "K_clubs"; "A_clubs";
     "7_diamonds"; "7_spades"; "7_hearts"; "7_clubs"];
    ["Q_diamonds"; "Q_spades"; "Q_hearts"; "Q_clubs"; "A_hearts";
     "6_diamonds"; "6_spades"; "6_hearts"; "6_clubs"];
    ["J_diamonds"; "J_spades"; "J_hearts"; "J_clubs"; "A_spades";
     "5_diamonds"; "5_spades"; "5_hearts"; "5_clubs"];
    ["10_diamonds"; "10_spades"; "10_hearts"; "10_clubs"; "A_diamonds";
     "4_diamonds"; "4_spades"; "4_hearts"; "4_clubs"];
    ["9_diamonds"; "9_spades"; "9_hearts"; "9_clubs"; "joker";
     "3_diamonds"; "3_spades"; "3_hearts"; "3_clubs"];
    ["8_diamonds"; "8_spades"; "8_hearts"; "8_clubs"; "back";
     "2_diamonds"; "2_spades"; "2_hearts"; "2_clubs"] ].

(** The two tests of [remove_green_background] on the bands of a pixel. *)
Definition is_green (r g b : Z) : bool :=
  (Z.abs (r - 17) <? 40) && (Z.abs (g - 94) <? 50) &&
  (Z.abs (b - 63) <? 40) && (g >? r) && (g >? b).

Definition is_dark_green (r g b : Z) : bool :=
  (g >? r + 10) && (g >? b + 5) && (r <? 80) && (g <? 180) && (b <? 100).

(** The body of the loop over the pixels: what is appended to
    [new_data] for [item]. *)
Definition remove_green_item (item : pixel) : pixel :=
  let '(r, g, b, a) := item in
  if is_green r g b || is_dark_green r g b
  then (0, 0, 0, 0)
  else item.

(** Convert green background to transparent. The [tolerance] argument is
    accepted and never read, as in the script. *)
Definition remove_green_background (img : image) (tolerance : Z) : image :=
  let img := convert img RGBA in
  let data := getdata img in
  let new_data := remove_green_item <$> data in
  putdata img new_data.

(** Crop transparent borders from the image. *)
Definition crop_transparent_borders (img : image) : Py.result image :=
  let bbox := getbbox img in
  match bbox with
  | Some b => crop img b
  | None => Py.Ok img
  end.

(** What a run does to the outside world, in order. *)
Inductive event :=
| Makedirs (path : string)
| Print (line : string)
| Save (path : string) (img : image).

Global Instance event_eq_dec : EqDecision event.
Proof. solve_decision. Defined.

(** The variables the grid loop updates. *)
Record state := State {
  card_count : Z;
  seen_cards : gset string;
  trace : list event;
}.

Definition FIRST_CARD_X : Z := 72.
Definition FIRST_CARD_Y : Z := 544.
Definition CARD_WIDTH : Z := 428.
Definition CARD_HEIGHT : Z := 576.
Definition H_GAP : Z := 62.
Definition V_GAP : Z := 84.

(** The image of the cell at [(row, col)]: cropped at its fixed
    rectangle, background removed, transparent borders trimmed. *)
Definition cell_card (sprite_sheet : image) (row col : Z) : Py.result image :=
  let left_ := FIRST_CARD_X + col * (CARD_WIDTH + H_GAP) in
  let upper := FIRST_CARD_Y + row * (CARD_HEIGHT + V_GAP) in
  let right_ := left_ + CARD_WIDTH in
  let lower := upper + CARD_HEIGHT in
  card ← crop sprite_sheet (left_, upper, right_, lower);
  let card := remove_green_background card 15 in
  crop_transparent_borders card.

(** [card_map[row][col]] *)
Definition cell_name (card_map : list (list string)) (row col : Z)
  : Py.result string :=
  card_row ← Py.index card_map row;
  Py.index card_row col.

Definition skipped_line (card_name : string) : string :=
  "⊘ Skipped duplicate: " +:+ card_name.

Definition saved_line (filename : string) (card : image) : string :=
  "✓ Saved: " +:+ filename +:+ " (" +:+ Py.str (Z.of_nat (width card))
    +:+ "x" +:+ Py.str (Z.of_nat (height card)) +:+ ")".

(** The body of the two nested loops. *)
Definition slice_cell (card_map : list (list string)) (sprite_sheet : image)
    (row col : Z) (st : state) : Py.result state :=
  card ← cell_card sprite_sheet row col;
  card_name ← cell_name card_map row col;
  if decide (card_name ∈ seen_cards st) then
    Py.Ok (State (card_count st) (seen_cards st)
                 (trace st ++ [Print (skipped_line card_name)]))
  else
    let seen := {[card_name]} ∪ seen_cards st in
    let filename := card_name +:+ ".png" in
    let output_path := Py.path_join OUTPUT_DIR filename in
    Py.Ok (State (card_count st + 1) seen
                 (trace st ++ [Save output_path card;
                               Print (saved_line filename card)])).

Definition slice_grid (card_map : list (list string)) (sprite_sheet : image)
    (st : state) : Py.result state :=
  Py.for_each (Py.range 0 ROWS)
    (λ row, Py.for_each (Py.range 0 COLS)
              (λ col, slice_cell card_map sprite_sheet row col))
    st.

(** [slice_cards], with the name table as an argument: the events of a
    run on the file system [fs], or the exception that ends it. *)
Definition slice_cards_on (card_map : list (list string))
    (fs : gmap string image) : Py.result (list event) :=
  let tr := [Makedirs OUTPUT_DIR;
             Print ("Opening " +:+ INPUT_IMAGE +:+ "...")] in
  sprite_sheet ← open fs INPUT_IMAGE;
  let '(img_width, img_height) := size sprite_sheet in
  let tr := tr ++
    [ Print ("Image size: " +:+ Py.str img_width +:+ "x" +:+ Py.str img_height);
      Print ("Card size: " +:+ Py.str CARD_WIDTH +:+ "x" +:+ Py.str CARD_HEIGHT);
      Print ("First card position: (" +:+ Py.str FIRST_CARD_X +:+ ", "
             +:+ Py.str FIRST_CARD_Y +:+ ")");
      Print ("Gaps: H=" +:+ Py.str H_GAP +:+ "px, V=" +:+ Py.str V_GAP +:+ "px");
      Print ("Grid: " +:+ Py.str ROWS +:+ " rows x " +:+ Py.str COLS +:+ " columns");
      Print (Py.repeat_str "-" 50) ] in
  st ← slice_grid card_map sprite_sheet (State 0 ∅ tr);
  Py.Ok (trace st ++
    [ Print (Py.repeat_str "-" 50);
      Print ("✅ Successfully sliced " +:+ Py.str (card_count st) +:+ " unique cards!");
      Print ("📁 Cards saved to: " +:+ OUTPUT_DIR);
      Print (Py.nl +:+ "📊 Unique cards saved: "
             +:+ Py.str (Py.len_set (seen_cards st)));
      Print (Py.nl +:+ "🎴 All 52 playing cards successfully extracted!");
      Print (Py.nl +:+ "You can now use these cards in your frontend:");
      Print "  /cards/A_spades.png";
      Print "  /cards/K_hearts.png";
      Print "  /cards/10_diamonds.png";
      Print "  etc." ]).

Definition slice_cards : gmap string image → Py.result (list event) :=
  slice_cards_on CARD_MAP.

(** Reading a trace: the paths written, the images written to one path,
    and the files that exist afterwards. *)
Definition saved_paths (tr : list event) : list string :=
  omap (λ e, match e with Save p _ => Some p | _ => None end) tr.

Definition writes_to (path : string) (tr : list event) : list image :=
  omap (λ e, match e with
             | Save p img => if decide (p = path) then Some img else None
             | _ => None
             end) tr.

Definition apply_event (fs : gmap string image) (e : event)
  : gmap string image :=
  match e with
  | Save p img => <[p := img]> fs
  | _ => fs
  end.

Definition files_after (tr : list event) (fs : gmap string image)
  : gmap string image :=
  foldl apply_event fs tr.

End Slice.

(** ** analyze_cards.py *)

Module Analyze.
Import PIL.

Definition INPUT_IMAGE : string := "playing_cards_full_set.jpg".

(** The conditional expression that names the colour of a sample. *)
Definition color_type (r g b : Z) : string :=
  if (g >? r + 10) && (g >? b + 5) then "GREEN"
  else if (r >? 200) && (g >? 200) && (b >? 200) then "WHITE"
  else "OTHER".

Definition sample_line (axis : string) (coord r g b : Z) : string :=
  "  " +:+ axis +:+ "=" +:+ Py.format_d 3 coord +:+ ": RGB("
    +:+ Py.format_d 3 r +:+ "," +:+ Py.format_d 3 g +:+ ","
    +:+ Py.format_d 3 b +:+ ") - " +:+ color_type r g b.

(** The lines [analyze_sprite_sheet] prints, or the exception that ends
    it. *)
Definition analyze_sprite_sheet (fs : gmap string image)
  : Py.result (list string) :=
  img ← open fs INPUT_IMAGE;
  let img_rgb := convert img RGB in
  let out :=
    [ "Image size: (" +:+ Py.str (size img).1 +:+ ", "
        +:+ Py.str (size img).2 +:+ ")";
      Py.nl +:+ "Sampling pixels to find card boundaries...";
      Py.nl +:+ "Horizontal scan (row at y=700, middle of first card):" ] in
  out ← Py.for_each (Py.range_step 0 900 10)
          (λ x out,
             '(r, g, b, _) ← getpixel img_rgb (x, 700);
             Py.Ok (out ++ [sample_line "x" x r g b]))
          out;
  let out := out ++ [Py.nl +:+ "Vertical scan (col 0, middle width):"] in
  Py.for_each (Py.range_step 0 1300 20)
    (λ y out,
       '(r, g, b, _) ← getpixel img_rgb (225, y);
       Py.Ok (out ++ [sample_line "y" y r g b]))
    out.

End Analyze.

(** * Vocabulary of the statements *)

Module Spec.
Import PIL Slice.

(** The primary tolerance rule and the secondary dark-green rule, as
    propositions over the bands of a pixel. *)
Definition primary_rule (r g b : Z) : Prop :=
  Z.abs (r - 17) < 40 ∧ Z.abs (g - 94) < 50 ∧ Z.abs (b - 63) < 40 ∧
  g > r ∧ g > b.

Definition secondary_rule (r g b : Z) : Prop :=
  g > r + 10 ∧ g > b + 5 ∧ r < 80 ∧ g < 180 ∧ b < 100.

Definition background (r g b : Z) : Prop :=
  primary_rule r g b ∨ secondary_rule r g b.

(** The alpha band of a pixel, and the pixels that count as transparent. *)
Definition alpha (p : pixel) : Z := p.2.

Definition transparent (p : pixel) : Prop := alpha p = 0.

(** An image holds one pixel per position. *)
Definition well_formed (img : image) : Prop :=
  length (getdata img) = (width img * height img)%nat.

(** Position [(x, y)] of the image holds a pixel that is not transparent. *)
Definition visible (img : image) (x y : Z) : Prop :=
  ∃ p, pixel_at img x y = Some p ∧ ¬ transparent p.

(** [b] is the smallest box around the visible pixels: it contains them
    all, and each of its four edges touches one. *)
Definition bounding_box (img : image) (b : box) : Prop :=
  let '(x0, y0, x1, y1) := b in
  (∀ x y, visible img x y → x0 ≤ x < x1 ∧ y0 ≤ y < y1) ∧
  (∃ y, visible img x0 y) ∧ (∃ y, visible img (x1 - 1) y) ∧
  (∃ x, visible img x y0) ∧ (∃ x, visible img x (y1 - 1)).

(** [img'] is the part of [img] inside the box [b]. *)
Definition region (img : image) (b : box) (img' : image) : Prop :=
  let '(x0, y0, x1, y1) := b in
  im_mode img' = im_mode img ∧
  size img' = (x1 - x0, y1 - y0) ∧
  ∀ x y, 0 ≤ x < x1 - x0 → 0 ≤ y < y1 - y0 →
    is_Some (pixel_at img' x y) ∧
    pixel_at img' x y = pixel_at img (x0 + x) (y0 + y).

(** The entry of a name table at a grid position [(row, col)], counted
    from 0. *)
Definition table_at (card_map : list (list string)) (pos : nat * nat)
  : option string :=
  card_map !! pos.1 ≫= λ card_row, card_row !! pos.2.

(** Two distinct grid positions of the table carry the same name. *)
Definition has_duplicate_entry (card_map : list (list string)) : Prop :=
  ∃ name p q,
    p ≠ q ∧ table_at card_map p = Some name ∧ table_at card_map q = Some name.

(** The positions of a grid of [rows] by [cols] cells, row by row. *)
Definition positions (rows cols : nat) : list (nat * nat) :=
  row ← seq 0 rows; col ← seq 0 cols; [(row, col)].

(** Two file systems agree on the 52 card files. *)
Definition agree_on_cards (fs1 fs2 : gset string) : Prop :=
  ∀ id filename, 1 ≤ id ≤ 52 → Verify.card_id_to_filename id = Py.Ok filename →
    Verify.path_exists fs1 (Py.path_join Verify.cards_dir filename)
    = Verify.path_exists fs2 (Py.path_join Verify.cards_dir filename).

(** The paths of the 52 card files, and the directory that holds all of
    them but the one named [filename]. *)
Definition card_paths : list string :=
  omap (λ id, match Verify.card_id_to_filename id with
              | Py.Ok f => Some (Py.path_join Verify.cards_dir f)
              | Py.Raise _ => None
              end) (Py.range 1 53).

Definition cards_without (filename : string) : gset string :=
  list_to_set
    (filter (λ p, p ≠ Py.path_join Verify.cards_dir filename) card_paths).

(** The cells of the grid in the order the two loops visit them. *)
Definition grid_cells : list (Z * Z) :=
  row ← Py.range 0 ROWS; col ← Py.range 0 COLS; [(row, col)].

(** A name table that has an entry for every cell of the grid. *)
Definition covers_grid (card_map : list (list string)) : Prop :=
  (Z.to_nat ROWS ≤ length card_map)%nat ∧
  Forall (λ card_row : list string, (Z.to_nat COLS ≤ length card_row)%nat)
         (take (Z.to_nat ROWS) card_map).

(** The path a card name is saved at. *)
Definition output_path (card_name : string) : string :=
  Py.path_join OUTPUT_DIR (card_name +:+ ".png").

(** [info] is the name and the trimmed image of the cell [rc]. *)
Definition cell_info (card_map : list (list string)) (sprite_sheet : image)
    (rc : Z * Z) (info : string * image) : Prop :=
  cell_name card_map rc.1 rc.2 = Py.Ok info.1 ∧
  cell_card sprite_sheet rc.1 rc.2 = Py.Ok info.2.

(** The remainder of [s] after the prefix [pre], if [s] starts with it. *)
Fixpoint strip_prefix (pre s : string) : option string :=
  match pre, s with
  | EmptyString, _ => Some s
  | String a pre', String b s' =>
      if bool_decide (a = b) then strip_prefix pre' s' else None
  | String _ _, EmptyString => None
  end.

(** The names a trace reports as skipped duplicates, in order. *)
Definition skipped_names (tr : list event) : list string :=
  omap (λ e, match e with
             | Print line => strip_prefix "⊘ Skipped duplicate: " line
             | _ => None
             end) tr.

(** How often [name] occurs in a list of names. *)
Definition occurrences (name : string) (names : list string) : nat :=
  length (filter (λ n, n = name) names).

(** What one pass of the loop body does to the state, given the name and
    the image of the cell. *)
Definition record_cell (st : state) (info : string * image) : state :=
  let '(card_name, card) := info in
  if decide (card_name ∈ seen_cards st) then
    State (card_count st) (seen_cards st)
          (trace st ++ [Print (skipped_line card_name)])
  else
    State (card_count st + 1) ({[card_name]} ∪ seen_cards st)
          (trace st ++ [Save (output_path card_name) card;
                        Print (saved_line (card_name +:+ ".png") card)]).

(** The events of the loop over cells with the given names and images,
    when the names in [seen] have been saved before. *)
Fixpoint cell_events (seen : gset string) (infos : list (string * image))
  : list event :=
  match infos with
  | [] => []
  | (card_name, card) :: infos' =>
      if decide (card_name ∈ seen) then
        Print (skipped_line card_name) :: cell_events seen infos'
      else
        Save (output_path card_name) card
          :: Print (saved_line (card_name +:+ ".png") card)
          :: cell_events ({[card_name]} ∪ seen) infos'
  end.

(** The filenames of a full deck, with the joker and the back. *)
Definition expected_filenames : list string :=
  (rank ← Verify.CARD_NAMES; suit ← Verify.SUITS;
   [rank +:+ "_" +:+ suit +:+ ".png"]) ++ ["joker.png"; "back.png"].

(** The classification of a sample with bands [r], [g], [b]: GREEN when
    green exceeds red by more than 10 and blue by more than 5, otherwise
    WHITE when all bands exceed 200, otherwise OTHER. *)
Definition classified (r g b : Z) (cls : string) : Prop :=
  (g > r + 10 ∧ g > b + 5 ∧ cls = "GREEN") ∨
  (¬ (g > r + 10 ∧ g > b + 5) ∧ r > 200 ∧ g > 200 ∧ b > 200 ∧
   cls = "WHITE") ∨
  (¬ (g > r + 10 ∧ g > b + 5) ∧ ¬ (r > 200 ∧ g > 200 ∧ b > 200) ∧
   cls = "OTHER").

(** [line] is the printed reading of the pixel of [img] at [(x, y)]: the
    coordinate [coord] along [axis], the three bands of that pixel and
    their classification. *)
Definition reading (img : image) (axis : string) (coord x y : Z)
    (line : string) : Prop :=
  ∃ r g b a cls,
    pixel_at img x y = Some (r, g, b, a) ∧
    classified r g b cls ∧
    line = "  " +:+ axis +:+ "=" +:+ Py.format_d 3 coord +:+ ": RGB("
           +:+ Py.format_d 3 r +:+ "," +:+ Py.format_d 3 g +:+ ","
           +:+ Py.format_d 3 b +:+ ") - " +:+ cls.

End Spec.

(** * Vocabulary of the further statements *)

Module Layout.
Import PIL Slice.

(** The rectangle [(left, upper, right, lower)] that [slice_cards] crops
    for the cell at [(row, col)]. *)
Definition cell_box (row col : Z) : box :=
  let left_ := FIRST_CARD_X + col * (CARD_WIDTH + H_GAP) in
  let upper := FIRST_CARD_Y + row * (CARD_HEIGHT + V_GAP) in
  let right_ := left_ + CARD_WIDTH in
  let lower := upper + CARD_HEIGHT in
  (left_, upper, right_, lower).

(** Position [(x, y)] lies inside a box, right and lower edges excluded. *)
Definition inside (b : box) (x y : Z) : Prop :=
  let '(x0, y0, x1, y1) := b in x0 ≤ x < x1 ∧ y0 ≤ y < y1.

(** The entry the exhaustive check of the verifier collects for [card_id],
    if its file is absent. *)
Definition missing_entry (fs : gset string) (card_id : Z)
  : option (Z * string) :=
  match Verify.card_id_to_filename card_id with
  | Py.Ok filename =>
      if Verify.path_exists fs (Py.path_join Verify.cards_dir filename)
      then None
      else Some (card_id, filename)
  | Py.Raise _ => None
  end.

(** The paths at which a file system holds a file. *)
Definition paths_of (fs : gmap string image) : gset string := dom fs.

End Layout.

(** * Properties *)

(** Decide a closed decidable proposition by evaluation. *)
Ltac decide_by_eval :=
  refine (bool_decide_unpack _ _); vm_compute; exact I.

(** ** The numbering of the cards *)

Section card_ids.
Import Verify.

(** The ids 1..52, as [range(1, 53)] lists them. *)
Lemma range_1_53_elem id : id ∈ Py.range 1 53 ↔ 1 ≤ id ≤ 52.
Proof. unfold Py.range. rewrite elem_of_seqZ. lia. Qed.

Lemma filenames_NoDup : NoDup (card_id_to_filename <$> Py.range 1 53).
Proof. decide_by_eval. Qed.

Lemma card_id_to_filename_inj id1 id2 :
  1 ≤ id1 ≤ 52 → 1 ≤ id2 ≤ 52 →
  card_id_to_filename id1 = card_id_to_filename id2 → id1 = id2.
Proof.
  intros H1 H2 Heq.
  pose proof filenames_NoDup as Hnd.
  rewrite NoDup_alt in Hnd.
  assert (Hlk : ∀ id, 1 ≤ id ≤ 52 →
            (card_id_to_filename <$> Py.range 1 53) !! Z.to_nat (id - 1)
            = Some (card_id_to_filename id)).
  { intros id Hid. rewrite list_lookup_fmap. unfold Py.range.
    rewrite lookup_seqZ_lt by lia. simpl. f_equal. f_equal. lia. }
  pose proof (Hlk id1 H1) as Hl1. pose proof (Hlk id2 H2) as Hl2.
  rewrite Heq in Hl1.
  pose proof (Hnd _ _ _ Hl1 Hl2). lia.
Qed.

Lemma card_id_to_filename_formula id :
  1 ≤ id ≤ 52 →
  ∃ rank suit,
    CARD_NAMES !! Z.to_nat ((id - 1) `mod` 13) = Some rank ∧
    SUITS !! Z.to_nat ((id - 1) `div` 13) = Some suit ∧
    card_id_to_filename id = Py.Ok (rank +:+ "_" +:+ suit +:+ ".png").
Proof.
  intros Hid. apply range_1_53_elem in Hid. revert id Hid.
  apply Forall_forall.
  let l := eval vm_compute in (Py.range 1 53) in
  change (Py.range 1 53) with l.
  repeat (apply Forall_cons_2; [by do 2 eexists|]).
  apply Forall_nil_2.
Qed.

Lemma card_id_to_filename_surj rank suit :
  rank ∈ CARD_NAMES → suit ∈ SUITS →
  ∃ id, 1 ≤ id ≤ 52 ∧
        card_id_to_filename id = Py.Ok (rank +:+ "_" +:+ suit +:+ ".png").
Proof.
  assert (Hall : Forall (λ r, Forall (λ s,
            Exists (λ id, card_id_to_filename id
                          = Py.Ok (r +:+ "_" +:+ s +:+ ".png"))
                   (Py.range 1 53)) SUITS) CARD_NAMES)
    by decide_by_eval.
  intros Hr Hs.
  rewrite Forall_forall in Hall. specialize (Hall rank Hr).
  rewrite Forall_forall in Hall. specialize (Hall suit Hs).
  apply Exists_exists in Hall as (id & Hin & Hid).
  exists id. split; [by apply range_1_53_elem | done].
Qed.

(** C1: on the ids 1..52, [card_id_to_filename] returns
    ["<rank>_<suit>.png"] with the rank at index [(id-1) mod 13] of
    A,2..10,J,Q,K and the suit at index [(id-1) div 13] of spades, hearts,
    diamonds, clubs; it is injective there and reaches each of the 52
    rank/suit names; ids 1, 13, 14, 52, 7 and 33 map to A_spades, K_spades,
    A_hearts, K_clubs, 7_spades and 7_diamonds. *)
Theorem card_id_to_filename_bijection :
  (∀ id, 1 ≤ id ≤ 52 →
     ∃ rank suit,
       CARD_NAMES !! Z.to_nat ((id - 1) `mod` 13) = Some rank ∧
       SUITS !! Z.to_nat ((id - 1) `div` 13) = Some suit ∧
       card_id_to_filename id = Py.Ok (rank +:+ "_" +:+ suit +:+ ".png")) ∧
  (∀ id1 id2, 1 ≤ id1 ≤ 52 → 1 ≤ id2 ≤ 52 →
     card_id_to_filename id1 = card_id_to_filename id2 → id1 = id2) ∧
  (∀ rank suit, rank ∈ CARD_NAMES → suit ∈ SUITS →
     ∃ id, 1 ≤ id ≤ 52 ∧
           card_id_to_filename id = Py.Ok (rank +:+ "_" +:+ suit +:+ ".png")) ∧
  CARD_NAMES = ["A"; "2"; "3"; "4"; "5"; "6"; "7"; "8"; "9"; "10"; "J"; "Q"; "K"] ∧
  SUITS = ["spades"; "hearts"; "diamonds"; "clubs"] ∧
  card_id_to_filename 1 = Py.Ok "A_spades.png" ∧
  card_id_to_filename 13 = Py.Ok "K_spades.png" ∧
  card_id_to_filename 14 = Py.Ok "A_hearts.png" ∧
  card_id_to_filename 52 = Py.Ok "K_clubs.png" ∧
  card_id_to_filename 7 = Py.Ok "7_spades.png" ∧
  card_id_to_filename 33 = Py.Ok "7_diamonds.png".
Proof.
  split; [exact card_id_to_filename_formula|].
  split; [exact card_id_to_filename_inj|].
  split; [exact card_id_to_filename_surj|].
  repeat split.
Qed.

(** The formula of C1 at id 33, the second card of the bug scenario. *)
Lemma card_id_to_filename_bijection_witness :
  1 ≤ 33 ≤ 52 ∧
  ∃ rank suit,
    CARD_NAMES !! Z.to_nat ((33 - 1) `mod` 13) = Some rank ∧
    SUITS !! Z.to_nat ((33 - 1) `div` 13) = Some suit ∧
    card_id_to_filename 33 = Py.Ok (rank +:+ "_" +:+ suit +:+ ".png").
Proof.
  split; [lia|].
  apply (proj1 card_id_to_filename_bijection 33). lia.
Defined.

(** C10: the id is not checked. For 0, Python's modulo and floor division
    give rank index 12 and suit index -1, which reads the last suit, so the
    result is "K_clubs.png", the filename of id 52; on 0..52 the mapping is
    not injective. *)
Theorem card_id_to_filename_zero :
  (0 - 1) `mod` 13 = 12 ∧
  (0 - 1) `div` 13 = -1 ∧
  Py.index SUITS (-1) = Py.Ok "clubs" ∧
  card_id_to_filename 0 = Py.Ok "K_clubs.png" ∧
  card_id_to_filename 52 = Py.Ok "K_clubs.png" ∧
  ¬ (∀ id1 id2, 0 ≤ id1 ≤ 52 → 0 ≤ id2 ≤ 52 →
       card_id_to_filename id1 = card_id_to_filename id2 → id1 = id2).
Proof.
  repeat split.
  intros Hinj. specialize (Hinj 0 52). discriminate Hinj; [lia|lia|reflexivity].
Qed.

End card_ids.

(** ** Pixel classification *)

Section pixels.
Import PIL Slice Analyze Spec.

Lemma is_green_true r g b : is_green r g b = true ↔ primary_rule r g b.
Proof.
  unfold is_green, primary_rule.
  rewrite !andb_true_iff, !Z.gtb_ltb, !Z.ltb_lt. lia.
Qed.

Lemma is_dark_green_true r g b :
  is_dark_green r g b = true ↔ secondary_rule r g b.
Proof.
  unfold is_dark_green, secondary_rule.
  rewrite !andb_true_iff, !Z.gtb_ltb, !Z.ltb_lt. lia.
Qed.

Lemma background_test r g b :
  is_green r g b || is_dark_green r g b = true ↔ background r g b.
Proof.
  unfold background.
  by rewrite orb_true_iff, is_green_true, is_dark_green_true.
Qed.

Lemma remove_green_item_background r g b a :
  background r g b → remove_green_item (r, g, b, a) = (0, 0, 0, 0).
Proof.
  intros H%background_test. unfold remove_green_item. by rewrite H.
Qed.

Lemma remove_green_item_other r g b a :
  ¬ background r g b → remove_green_item (r, g, b, a) = (r, g, b, a).
Proof.
  intros H. unfold remove_green_item.
  destruct (is_green r g b || is_dark_green r g b) eqn:E; [|done].
  by apply background_test in E.
Qed.

Lemma black_not_background : ¬ background 0 0 0.
Proof. unfold background, primary_rule, secondary_rule. lia. Qed.

Lemma putdata_same_length img data :
  length data = length (getdata img) →
  putdata img data = Image (im_mode img) (width img) (height img) data.
Proof.
  intros Hlen. unfold putdata. f_equal.
  rewrite take_ge, drop_ge by lia. apply app_nil_r.
Qed.

Lemma convert_RGBA_mode img : im_mode (convert img RGBA) = RGBA.
Proof. unfold convert. by destruct (im_mode img) eqn:E. Qed.

Lemma convert_RGBA_id img : im_mode img = RGBA → convert img RGBA = img.
Proof. intros H. unfold convert. by rewrite H. Qed.

Lemma remove_green_background_eq img tolerance :
  remove_green_background img tolerance =
  Image RGBA (width (convert img RGBA)) (height (convert img RGBA))
        (remove_green_item <$> getdata (convert img RGBA)).
Proof.
  unfold remove_green_background.
  rewrite putdata_same_length by apply length_fmap.
  by rewrite convert_RGBA_mode.
Qed.

(** The claim of C4 as it is written fails: the transparent pixel is
    returned as it is, and it satisfies neither rule. *)
Lemma transparent_output_without_rule :
  ¬ (∀ r g b a,
       remove_green_item (r, g, b, a) = (0, 0, 0, 0) ↔ background r g b).
Proof.
  intros H. apply black_not_background. by apply (H 0 0 0 0).
Qed.

(** C4, amended: a pixel that satisfies the primary or the secondary rule
    becomes (0,0,0,0) and every other pixel passes through unchanged, so
    the output is (0,0,0,0) exactly when the pixel satisfies one of the
    rules or is (0,0,0,0) already; [remove_green_background] applies this
    to every pixel of the image converted to RGBA. *)
Theorem remove_green_item_spec r g b a :
  (background r g b → remove_green_item (r, g, b, a) = (0, 0, 0, 0)) ∧
  (¬ background r g b → remove_green_item (r, g, b, a) = (r, g, b, a)) ∧
  (remove_green_item (r, g, b, a) = (0, 0, 0, 0) ↔
     background r g b ∨ (r, g, b, a) = (0, 0, 0, 0)) ∧
  (∀ img tolerance,
     getdata (remove_green_background img tolerance) =
     remove_green_item <$> getdata (convert img RGBA)).
Proof.
  split; [apply remove_green_item_background|].
  split; [apply remove_green_item_other|].
  split.
  - split.
    + intros Hout.
      destruct (is_green r g b || is_dark_green r g b) eqn:E.
      * left. by apply background_test.
      * right. unfold remove_green_item in Hout. by rewrite E in Hout.
    + intros [Hbg | Heq].
      * by apply remove_green_item_background.
      * by injection Heq as -> -> -> ->.
  - intros img tolerance. by rewrite remove_green_background_eq.
Qed.

(** C4 at the sheet's background colour and at an opaque white pixel. *)
Lemma remove_green_item_spec_witness :
  remove_green_item (17, 94, 63, 255) = (0, 0, 0, 0) ∧
  remove_green_item (255, 255, 255, 255) = (255, 255, 255, 255).
Proof.
  split.
  - apply (proj1 (remove_green_item_spec 17 94 63 255)).
    left. unfold primary_rule. lia.
  - apply (proj1 (proj2 (remove_green_item_spec 255 255 255 255))).
    unfold background, primary_rule, secondary_rule. lia.
Defined.

Lemma remove_green_item_idem p :
  remove_green_item (remove_green_item p) = remove_green_item p.
Proof.
  destruct p as [[[r g] b] a].
  destruct (is_green r g b || is_dark_green r g b) eqn:E.
  - by rewrite remove_green_item_background by by apply background_test.
  - by rewrite !remove_green_item_other
      by (rewrite <- background_test; congruence).
Qed.

(** C8: the per-pixel transform is idempotent, the transparent pixel
    (0,0,0,0) is a fixed point of it, and so a second pass of
    [remove_green_background] over an image changes nothing. *)
Theorem remove_green_idempotent :
  (∀ p, remove_green_item (remove_green_item p) = remove_green_item p) ∧
  remove_green_item (0, 0, 0, 0) = (0, 0, 0, 0) ∧
  (∀ img t1 t2,
     remove_green_background (remove_green_background img t1) t2 =
     remove_green_background img t1).
Proof.
  split; [apply remove_green_item_idem|]. split; [done|].
  intros img t1 t2.
  rewrite (remove_green_background_eq _ t2), (remove_green_background_eq _ t1).
  rewrite convert_RGBA_id by done. simpl.
  f_equal. rewrite <- list_fmap_compose.
  apply list_fmap_ext. intros _ p _. apply remove_green_item_idem.
Qed.

Lemma string_app_assoc (s1 s2 s3 : string) :
  (s1 +:+ s2) +:+ s3 = s1 +:+ s2 +:+ s3.
Proof.
  induction s1 as [|c s1 IH]; [done|].
  change (String c (s1 +:+ s2 +:+ s3) = String c ((s1 +:+ s2) +:+ s3)) ||
  change (String c ((s1 +:+ s2) +:+ s3) = String c (s1 +:+ s2 +:+ s3)).
  by rewrite IH.
Qed.

Lemma sample_line_color axis coord r g b :
  ∃ prefix,
    sample_line axis coord r g b = prefix +:+ " - " +:+ color_type r g b.
Proof.
  exists ("  " +:+ axis +:+ "=" +:+ Py.format_d 3 coord +:+ ": RGB("
          +:+ Py.format_d 3 r +:+ "," +:+ Py.format_d 3 g +:+ ","
          +:+ Py.format_d 3 b +:+ ")").
  unfold sample_line. by rewrite !string_app_assoc.
Qed.

End pixels.

(** ** The name table *)

Section name_table.
Import Slice Spec.

Lemma CARD_MAP_shape :
  length CARD_MAP = 6%nat ∧ Forall (λ card_row, length card_row = 9%nat) CARD_MAP.
Proof. split; [done | decide_by_eval]. Qed.

Lemma table_at_position p name :
  table_at CARD_MAP p = Some name → p ∈ positions 6 9.
Proof.
  destruct p as [row col]. unfold table_at. simpl.
  destruct (CARD_MAP !! row) as [card_row|] eqn:Hrow; [simpl|done].
  intros Hcol.
  destruct CARD_MAP_shape as [Hlen Hrows].
  pose proof (lookup_lt_Some _ _ _ Hrow) as Hr.
  pose proof (lookup_lt_Some _ _ _ Hcol) as Hc.
  rewrite Forall_forall in Hrows.
  rewrite (Hrows card_row) in Hc by by eapply list_elem_of_lookup_2.
  unfold positions. apply list_elem_of_bind. exists row.
  split; [|apply elem_of_seq; lia].
  apply list_elem_of_bind. exists col.
  split; [apply list_elem_of_singleton; done | apply elem_of_seq; lia].
Qed.

Lemma CARD_MAP_positions_distinct p q name :
  table_at CARD_MAP p = Some name → table_at CARD_MAP q = Some name → p = q.
Proof.
  assert (Hall : Forall (λ p, Forall (λ q,
            table_at CARD_MAP p = table_at CARD_MAP q → p = q)
            (positions 6 9)) (positions 6 9)) by decide_by_eval.
  intros Hp Hq.
  rewrite Forall_forall in Hall.
  specialize (Hall p (table_at_position _ _ Hp)).
  rewrite Forall_forall in Hall.
  apply (Hall q (table_at_position _ _ Hq)). congruence.
Qed.

Lemma CARD_MAP_NoDup : NoDup (concat CARD_MAP).
Proof. decide_by_eval. Qed.

Lemma CARD_MAP_length : length (concat CARD_MAP) = 54%nat.
Proof. done. Qed.

(** The claim of C5 fails on the table: no name stands at two positions. *)
Lemma CARD_MAP_no_duplicate_entry : ¬ has_duplicate_entry CARD_MAP.
Proof.
  intros (name & p & q & Hne & Hp & Hq).
  apply Hne. by eapply CARD_MAP_positions_distinct.
Qed.

(** C5, amended: the table has no duplicate entry. Its 54 cells carry 54
    distinct names; each ace stands once, in column 4 of rows 0 to 3, and
    each 7 once, in columns 5 to 8 of row 0. *)
Theorem CARD_MAP_entries_distinct :
  NoDup (concat CARD_MAP) ∧
  length (concat CARD_MAP) = 54%nat ∧
  (∀ p q name,
     table_at CARD_MAP p = Some name → table_at CARD_MAP q = Some name →
     p = q) ∧
  (λ row, table_at CARD_MAP (row, 4%nat)) <$> [0; 1; 2; 3]%nat
    = Some <$> ["A_clubs"; "A_hearts"; "A_spades"; "A_diamonds"] ∧
  (λ col, table_at CARD_MAP (0%nat, col)) <$> [5; 6; 7; 8]%nat
    = Some <$> ["7_diamonds"; "7_spades"; "7_hearts"; "7_clubs"].
Proof.
  split; [apply CARD_MAP_NoDup|]. split; [apply CARD_MAP_length|].
  split; [apply CARD_MAP_positions_distinct | done].
Qed.

End name_table.

(** ** The exhaustive check of the verifier *)

Section verifier.
Import Verify Spec.

Lemma bind_Ok {A B} (a : A) (k : A → Py.result B) : Py.Ok a ≫= k = k a.
Proof. done. Qed.

Lemma for_each_ext {A S} (xs : list A) (f g : A → S → Py.result S) st :
  (∀ x st', x ∈ xs → f x st' = g x st') →
  Py.for_each xs f st = Py.for_each xs g st.
Proof.
  revert st. induction xs as [|x xs IH]; intros st Hfg; [done|].
  simpl. rewrite Hfg by apply list_elem_of_here.
  destruct (g x st) as [st'|e]; [simpl|done].
  apply IH. intros y st'' Hy. apply Hfg. by apply list_elem_of_further.
Qed.

Lemma find_missing_agree fs1 fs2 :
  agree_on_cards fs1 fs2 → find_missing fs1 = find_missing fs2.
Proof.
  intros Hag. unfold find_missing. apply for_each_ext.
  intros id missing Hid%range_1_53_elem. unfold check_card.
  destruct (card_id_to_filename id) as [filename|e] eqn:Hf; [simpl|done].
  by rewrite (Hag id filename).
Qed.

Lemma main_agree fs1 fs2 :
  agree_on_cards fs1 fs2 → main fs1 = main fs2.
Proof.
  intros Hag.
  assert (H7 : card_id_to_filename 7 = Py.Ok "7_spades.png") by done.
  assert (H33 : card_id_to_filename 33 = Py.Ok "7_diamonds.png") by done.
  unfold main. cbv zeta.
  rewrite H7, bind_Ok, H33, bind_Ok.
  rewrite (find_missing_agree fs1 fs2 Hag).
  destruct (find_missing fs2) as [missing|]; [rewrite !bind_Ok|done].
  rewrite (Hag 7 _ ltac:(lia) H7), (Hag 33 _ ltac:(lia) H33).
  apply for_each_ext.
  intros id out Hid. unfold spot_check_line.
  destruct (card_id_to_filename id) as [filename|e] eqn:Hf; [simpl|done].
  rewrite (Hag id filename); [done| |done].
  unfold test_cards in Hid.
  rewrite !elem_of_cons, elem_of_nil in Hid. lia.
Qed.

Lemma cards_without_2_clubs id filename :
  1 ≤ id ≤ 52 → card_id_to_filename id = Py.Ok filename →
  path_exists (cards_without "2_clubs.png") (Py.path_join cards_dir filename)
  = bool_decide (filename ≠ "2_clubs.png").
Proof.
  intros Hid%range_1_53_elem Hf.
  set (check (fs : gset string) id :=
         match card_id_to_filename id with
         | Py.Ok f =>
             bool_decide
               (path_exists fs (Py.path_join cards_dir f)
                = bool_decide (f ≠ "2_clubs.png"))
         | Py.Raise _ => true
         end).
  assert (Hall : let fs := cards_without "2_clubs.png" in
                 forallb (check fs) (Py.range 1 53) = true)
    by (vm_compute; reflexivity).
  cbv zeta in Hall. rewrite forallb_forall in Hall.
  specialize (Hall id (proj1 (list_elem_of_In _ _) Hid)).
  unfold check in Hall. rewrite Hf in Hall.
  by apply bool_decide_eq_true in Hall.
Qed.

Lemma cards_without_2_clubs_iff id filename :
  1 ≤ id ≤ 52 → card_id_to_filename id = Py.Ok filename →
  path_exists (cards_without "2_clubs.png") (Py.path_join cards_dir filename)
    = true ↔ filename ≠ "2_clubs.png".
Proof.
  intros Hid Hf. rewrite (cards_without_2_clubs id) by done.
  by rewrite bool_decide_eq_true.
Qed.

(** C6: when every file of the ids 1..52 is present except "2_clubs.png",
    the loop collects the single entry (41, "2_clubs.png"), 41 being the
    id of that filename, and [main] runs to its end: it returns its output,
    in which the summary is the line counting one missing card followed by
    the line of id 41. *)
Theorem exhaustive_check_missing_2_clubs (fs : gset string) :
  (∀ id filename,
     1 ≤ id ≤ 52 → card_id_to_filename id = Py.Ok filename →
     path_exists fs (Py.path_join cards_dir filename) = true
     ↔ filename ≠ "2_clubs.png") →
  card_id_to_filename 41 = Py.Ok "2_clubs.png" ∧
  find_missing fs = Py.Ok [(41, "2_clubs.png")] ∧
  report [(41, "2_clubs.png")]
    = [Py.nl +:+ "❌ Missing 1 cards:"; "  Card ID 41: 2_clubs.png"] ∧
  ∃ before after,
    main fs = Py.Ok (before ++ report [(41, "2_clubs.png")] ++ after) ∧
    Forall (λ line, ∀ id filename, line ≠ missing_line (id, filename))
           (before ++ after).
Proof.
  intros Hfs.
  assert (Hag : agree_on_cards fs (cards_without "2_clubs.png")).
  { intros id filename Hid Hf.
    rewrite (cards_without_2_clubs id) by done.
    specialize (Hfs id filename Hid Hf).
    destruct (path_exists fs _) eqn:E; case_bool_decide as Hd; try done.
    - exfalso. destruct Hfs as [Htrue _]. by apply Htrue.
    - apply Hfs in Hd. congruence. }
  split; [done|].
  split; [rewrite (find_missing_agree _ _ Hag); vm_compute; reflexivity|].
  split; [done|].
  rewrite (main_agree _ _ Hag).
  let r := eval vm_compute in (main (cards_without "2_clubs.png")) in
  match r with
  | Py.Ok ?out =>
      exists (take 17 out), (drop 19 out);
      split; [vm_compute; reflexivity|]
  end.
  simpl. repeat (apply Forall_cons_2; [by intros id filename|]).
  apply Forall_nil_2.
Qed.

(** C6 at the directory that holds the 51 other card files. *)
Lemma exhaustive_check_missing_2_clubs_witness :
  find_missing (cards_without "2_clubs.png") = Py.Ok [(41, "2_clubs.png")].
Proof.
  apply (exhaustive_check_missing_2_clubs (cards_without "2_clubs.png")).
  apply cards_without_2_clubs_iff.
Defined.

End verifier.

(** ** Bounding boxes and crops *)

Section bounding_boxes.
Import PIL Slice Spec.

Lemma foldr_min_le (z : Z) (l : list Z) :
  foldr Z.min z l ≤ z ∧ Forall (λ k, foldr Z.min z l ≤ k) l.
Proof.
  induction l as [|k l [IH1 IH2]]; simpl; [split; [lia | constructor]|].
  split; [lia|]. constructor; [lia|].
  eapply Forall_impl; [exact IH2|]. simpl. lia.
Qed.

Lemma foldr_max_ge (z : Z) (l : list Z) :
  z ≤ foldr Z.max z l ∧ Forall (λ k, k ≤ foldr Z.max z l) l.
Proof.
  induction l as [|k l [IH1 IH2]]; simpl; [split; [lia | constructor]|].
  split; [lia|]. constructor; [lia|].
  eapply Forall_impl; [exact IH2|]. simpl. lia.
Qed.

Lemma foldr_min_elem (z : Z) (l : list Z) : foldr Z.min z l ∈ z :: l.
Proof.
  induction l as [|k l IH]; simpl; [apply list_elem_of_here|].
  destruct (Z.min_spec k (foldr Z.min z l)) as [[_ ->] | [_ ->]].
  - apply list_elem_of_further, list_elem_of_here.
  - rewrite !elem_of_cons in *. tauto.
Qed.

Lemma foldr_max_elem (z : Z) (l : list Z) : foldr Z.max z l ∈ z :: l.
Proof.
  induction l as [|k l IH]; simpl; [apply list_elem_of_here|].
  destruct (Z.max_spec k (foldr Z.max z l)) as [[_ ->] | [_ ->]].
  - rewrite !elem_of_cons in *. tauto.
  - apply list_elem_of_further, list_elem_of_here.
Qed.

Lemma pixel_at_in_bounds img x y p :
  pixel_at img x y = Some p →
  0 ≤ x < Z.of_nat (width img) ∧ 0 ≤ y < Z.of_nat (height img).
Proof.
  unfold pixel_at, in_bounds. intros H.
  destruct (_ && _) eqn:E; [|done].
  rewrite !andb_true_iff, !Z.leb_le, !Z.ltb_lt in E. lia.
Qed.

(** The positions [getbbox] looks at are those that hold content. *)
Lemma elem_of_content_coords img x y :
  (x, y) ∈ content_coords img ↔
  ∃ p, pixel_at img x y = Some p ∧ nonzero (im_mode img) p = true.
Proof.
  unfold content_coords. rewrite list_elem_of_bind. split.
  - intros (y' & Hin & _). apply list_elem_of_bind in Hin as (x' & Hin & _).
    destruct (pixel_at img x' y') as [p|] eqn:Hp; [|by apply elem_of_nil in Hin].
    destruct (nonzero (im_mode img) p) eqn:Hnz; [|by apply elem_of_nil in Hin].
    apply list_elem_of_singleton in Hin as [= -> ->]. eauto.
  - intros (p & Hp & Hnz).
    destruct (pixel_at_in_bounds _ _ _ _ Hp) as [Hx Hy].
    exists y. split; [|apply elem_of_seqZ; lia].
    apply list_elem_of_bind. exists x. split; [|apply elem_of_seqZ; lia].
    rewrite Hp, Hnz. apply list_elem_of_here.
Qed.

Lemma nonzero_RGBA p : nonzero RGBA p = true ↔ ¬ transparent p.
Proof.
  destruct p as [[[r g] b] a]. unfold transparent, alpha. simpl.
  rewrite negb_true_iff, Z.eqb_neq. done.
Qed.

Lemma elem_of_content_coords_visible img x y :
  im_mode img = RGBA → (x, y) ∈ content_coords img ↔ visible img x y.
Proof.
  intros Hm. rewrite elem_of_content_coords, Hm. unfold visible.
  by setoid_rewrite nonzero_RGBA.
Qed.

Lemma getbbox_None img : getbbox img = None ↔ content_coords img = [].
Proof.
  unfold getbbox. destruct (content_coords img) as [|[x y] cs]; done.
Qed.

(** What [getbbox] returns bounds the content positions and touches one
    on each side. *)
Lemma getbbox_Some img x0 y0 x1 y1 :
  getbbox img = Some (x0, y0, x1, y1) →
  (∀ x y, (x, y) ∈ content_coords img → x0 ≤ x < x1 ∧ y0 ≤ y < y1) ∧
  (∃ y, (x0, y) ∈ content_coords img) ∧
  (∃ y, (x1 - 1, y) ∈ content_coords img) ∧
  (∃ x, (x, y0) ∈ content_coords img) ∧
  (∃ x, (x, y1 - 1) ∈ content_coords img).
Proof.
  unfold getbbox.
  destruct (content_coords img) as [|[x y] cs] eqn:Hcs; [done|].
  intros [= <- <- <- <-].
  assert (Hfst : ∀ k, k ∈ x :: cs.*1 → ∃ y', (k, y') ∈ (x, y) :: cs).
  { intros k [->|Hk]%elem_of_cons; [exists y; apply list_elem_of_here|].
    apply list_elem_of_fmap in Hk as ([k' y'] & -> & Hin).
    exists y'. by apply list_elem_of_further. }
  assert (Hsnd : ∀ k, k ∈ y :: cs.*2 → ∃ x', (x', k) ∈ (x, y) :: cs).
  { intros k [->|Hk]%elem_of_cons; [exists x; apply list_elem_of_here|].
    apply list_elem_of_fmap in Hk as ([x' k'] & -> & Hin).
    exists x'. by apply list_elem_of_further. }
  split_and!.
  - intros x' y' Hin.
    destruct (foldr_min_le x cs.*1) as [Hx1 Hx2].
    destruct (foldr_min_le y cs.*2) as [Hy1 Hy2].
    destruct (foldr_max_ge x cs.*1) as [Hx3 Hx4].
    destruct (foldr_max_ge y cs.*2) as [Hy3 Hy4].
    apply elem_of_cons in Hin as [[= -> ->]|Hin]; [lia|].
    rewrite Forall_forall in Hx2, Hy2, Hx4, Hy4.
    assert (x' ∈ cs.*1) as Hx'
      by (apply list_elem_of_fmap; by exists (x', y')).
    assert (y' ∈ cs.*2) as Hy'
      by (apply list_elem_of_fmap; by exists (x', y')).
    specialize (Hx2 _ Hx'). specialize (Hx4 _ Hx').
    specialize (Hy2 _ Hy'). specialize (Hy4 _ Hy'). lia.
  - apply Hfst, foldr_min_elem.
  - replace (foldr Z.max x cs.*1 + 1 - 1) with (foldr Z.max x cs.*1) by lia.
    apply Hfst, foldr_max_elem.
  - apply Hsnd, foldr_min_elem.
  - replace (foldr Z.max y cs.*2 + 1 - 1) with (foldr Z.max y cs.*2) by lia.
    apply Hsnd, foldr_max_elem.
Qed.

(** Reading a list of rows of equal length by row and column. *)
Lemma lookup_rows {A B} (f : B → list A) (ys : list B) (n j i : nat) :
  (∀ y, y ∈ ys → length (f y) = n) → (i < n)%nat →
  (ys ≫= f) !! (j * n + i)%nat = ys !! j ≫= λ y, f y !! i.
Proof.
  revert j. induction ys as [|y ys IH]; intros j Hlen Hi; [done|].
  rewrite bind_cons.
  destruct j as [|j]; simpl.
  - rewrite lookup_app_l; [done|]. rewrite Hlen by apply list_elem_of_here. lia.
  - rewrite lookup_app_r; rewrite Hlen by apply list_elem_of_here; [|lia].
    replace (n + j * n + i - n)%nat with (j * n + i)%nat by lia.
    apply IH; [|done]. intros y' Hy'. apply Hlen. by apply list_elem_of_further.
Qed.

Lemma pixel_at_crop img x0 y0 x1 y1 img' x y :
  crop img (x0, y0, x1, y1) = Py.Ok img' →
  0 ≤ x < x1 - x0 → 0 ≤ y < y1 - y0 →
  pixel_at img' x y
  = Some (default (fill (im_mode img)) (pixel_at img (x0 + x) (y0 + y))).
Proof.
  unfold crop.
  destruct ((x1 <? x0) || (y1 <? y0)) eqn:E; [done|].
  intros [= <-] Hx Hy. unfold pixel_at at 1, in_bounds. simpl.
  replace ((0 <=? x) && (x <? Z.of_nat (Z.to_nat (x1 - x0))) && (0 <=? y)
           && (y <? Z.of_nat (Z.to_nat (y1 - y0)))) with true
    by (symmetry; rewrite !andb_true_iff, !Z.leb_le, !Z.ltb_lt; lia).
  replace (Z.to_nat (y * Z.of_nat (Z.to_nat (x1 - x0)) + x))
    with (Z.to_nat y * Z.to_nat (x1 - x0) + Z.to_nat x)%nat by nia.
  rewrite lookup_rows.
  - rewrite lookup_seqZ_lt by lia. simpl.
    rewrite list_lookup_fmap, lookup_seqZ_lt by lia. simpl.
    do 3 f_equal; lia.
  - intros y' _. rewrite length_fmap, length_seqZ. done.
  - lia.
Qed.

Lemma crop_Ok img x0 y0 x1 y1 :
  x0 ≤ x1 → y0 ≤ y1 →
  ∃ img', crop img (x0, y0, x1, y1) = Py.Ok img' ∧
          im_mode img' = im_mode img ∧
          size img' = (x1 - x0, y1 - y0).
Proof.
  intros Hx Hy. unfold crop.
  replace ((x1 <? x0) || (y1 <? y0)) with false
    by (symmetry; rewrite orb_false_iff, !Z.ltb_ge; lia).
  eexists. split; [done|]. split; [done|].
  unfold size. simpl. f_equal; lia.
Qed.

(** In an image that holds one pixel per position, every position inside
    the bounds holds a pixel and every pixel has a position. *)
Lemma pixel_at_is_Some img x y :
  well_formed img →
  0 ≤ x < Z.of_nat (width img) → 0 ≤ y < Z.of_nat (height img) →
  is_Some (pixel_at img x y).
Proof.
  intros Hwf Hx Hy. unfold pixel_at, in_bounds.
  replace ((0 <=? x) && (x <? Z.of_nat (width img)) && (0 <=? y)
           && (y <? Z.of_nat (height img))) with true
    by (symmetry; rewrite !andb_true_iff, !Z.leb_le, !Z.ltb_lt; lia).
  apply lookup_lt_is_Some. rewrite Hwf. nia.
Qed.

Lemma elem_of_getdata img p :
  well_formed img → p ∈ getdata img → ∃ x y, pixel_at img x y = Some p.
Proof.
  intros Hwf (i & Hi)%list_elem_of_lookup.
  pose proof (lookup_lt_Some _ _ _ Hi) as Hlt. rewrite Hwf in Hlt.
  assert (0 < width img)%nat as Hw by nia.
  exists (Z.of_nat (i mod width img)), (Z.of_nat (i / width img)).
  pose proof (Nat.mod_upper_bound i (width img) ltac:(lia)) as Hmod.
  pose proof (Nat.div_mod i (width img) ltac:(lia)) as Hdm.
  assert (i / width img < height img)%nat as Hdiv
    by (apply Nat.Div0.div_lt_upper_bound; lia).
  unfold pixel_at, in_bounds.
  replace ((0 <=? Z.of_nat (i mod width img))
           && (Z.of_nat (i mod width img) <? Z.of_nat (width img))
           && (0 <=? Z.of_nat (i / width img))
           && (Z.of_nat (i / width img) <? Z.of_nat (height img))) with true
    by (symmetry; rewrite !andb_true_iff, !Z.leb_le, !Z.ltb_lt; lia).
  rewrite <- Hi. f_equal. nia.
Qed.

Lemma visible_in_bounds img x y :
  visible img x y →
  0 ≤ x < Z.of_nat (width img) ∧ 0 ≤ y < Z.of_nat (height img).
Proof. intros (p & Hp & _). by eapply pixel_at_in_bounds. Qed.

Lemma pixel_at_elem_of img x y p : pixel_at img x y = Some p → p ∈ getdata img.
Proof.
  unfold pixel_at. destruct (in_bounds img x y); [|done].
  apply list_elem_of_lookup_2.
Qed.

Lemma getbbox_transparent img :
  im_mode img = RGBA → Forall transparent (getdata img) → getbbox img = None.
Proof.
  intros Hm Hall. apply getbbox_None.
  destruct (content_coords img) as [|[x y] cs] eqn:Hcs; [done|].
  assert (Hin : (x, y) ∈ content_coords img)
    by (rewrite Hcs; apply list_elem_of_here).
  apply elem_of_content_coords_visible in Hin as (p & Hp & Hnt); [|done].
  rewrite Forall_forall in Hall.
  destruct Hnt. eapply Hall, pixel_at_elem_of, Hp.
Qed.

Lemma getbbox_visible img :
  im_mode img = RGBA → well_formed img →
  Exists (λ p, ¬ transparent p) (getdata img) →
  ∃ b, getbbox img = Some b ∧ bounding_box img b.
Proof.
  intros Hm Hwf (p & Hp & Hnt)%Exists_exists.
  destruct (elem_of_getdata img p Hwf Hp) as (x & y & Hxy).
  assert (Hin : (x, y) ∈ content_coords img).
  { apply elem_of_content_coords_visible; [done|]. by exists p. }
  destruct (getbbox img) as [[[[x0 y0] x1] y1]|] eqn:Hbb.
  - exists (x0, y0, x1, y1). split; [done|].
    destruct (getbbox_Some _ _ _ _ _ Hbb) as (Hin' & Hl & Hr & Hu & Hd).
    unfold bounding_box.
    setoid_rewrite <- (elem_of_content_coords_visible img _ _ Hm). done.
  - apply getbbox_None in Hbb. rewrite Hbb in Hin. by apply elem_of_nil in Hin.
Qed.

(** The crop at a bounding box succeeds and is the part of the image
    inside the box. *)
Lemma crop_bounding_box img b :
  well_formed img → bounding_box img b →
  ∃ img', crop img b = Py.Ok img' ∧ region img b img'.
Proof.
  destruct b as [[[x0 y0] x1] y1].
  intros Hwf (Hin & [yl Hl] & [yr Hr] & [xu Hu] & [xd Hd]).
  destruct (Hin _ _ Hl) as [Hx01 _]. destruct (Hin _ _ Hu) as [_ Hy01].
  apply visible_in_bounds in Hl as [Hl _], Hr as [Hr _].
  apply visible_in_bounds in Hu as [_ Hu], Hd as [_ Hd].
  destruct (crop_Ok img x0 y0 x1 y1) as (img' & Hcrop & Hmode & Hsize);
    [lia..|].
  exists img'. split; [done|].
  unfold region. split; [done|]. split; [done|].
  intros x y Hx Hy.
  rewrite (pixel_at_crop _ _ _ _ _ _ _ _ Hcrop) by done.
  split; [done|].
  destruct (pixel_at_is_Some img (x0 + x) (y0 + y) Hwf) as [p ->];
    [lia..|done].
Qed.

Lemma length_rows {A B} (f : B → list A) (ys : list B) (n : nat) :
  (∀ y, y ∈ ys → length (f y) = n) →
  length (ys ≫= f) = (length ys * n)%nat.
Proof.
  induction ys as [|y ys IH]; intros Hlen; [done|].
  rewrite bind_cons, length_app, Hlen by apply list_elem_of_here.
  rewrite IH; [done|]. intros y' Hy'. apply Hlen. by apply list_elem_of_further.
Qed.

Lemma crop_well_formed img b img' : crop img b = Py.Ok img' → well_formed img'.
Proof.
  destruct b as [[[x0 y0] x1] y1]. unfold crop.
  destruct ((x1 <? x0) || (y1 <? y0)); [done|].
  intros [= <-]. unfold well_formed. simpl.
  rewrite (length_rows _ _ (Z.to_nat (x1 - x0))).
  - rewrite length_seqZ. lia.
  - intros y _. by rewrite length_fmap, length_seqZ.
Qed.

Lemma remove_green_background_ready img tolerance :
  well_formed img →
  im_mode (remove_green_background img tolerance) = RGBA ∧
  well_formed (remove_green_background img tolerance).
Proof.
  intros Hwf. rewrite remove_green_background_eq. split; [done|].
  unfold well_formed, convert in *. simpl. rewrite length_fmap.
  destruct (im_mode img); simpl; by rewrite ?length_fmap.
Qed.

(** The image the slicer trims is an RGBA image that holds one pixel per
    position. *)
Lemma cell_card_trims sprite_sheet row col :
  ∃ cell,
    cell_card sprite_sheet row col = crop_transparent_borders cell ∧
    im_mode cell = RGBA ∧ well_formed cell.
Proof.
  unfold cell_card. cbv zeta.
  destruct (crop_Ok sprite_sheet
              (FIRST_CARD_X + col * (CARD_WIDTH + H_GAP))
              (FIRST_CARD_Y + row * (CARD_HEIGHT + V_GAP))
              (FIRST_CARD_X + col * (CARD_WIDTH + H_GAP) + CARD_WIDTH)
              (FIRST_CARD_Y + row * (CARD_HEIGHT + V_GAP) + CARD_HEIGHT))
    as (card & Hcrop & _); [unfold CARD_WIDTH; lia | unfold CARD_HEIGHT; lia|].
  rewrite Hcrop. exists (remove_green_background card 15).
  split; [done|].
  apply remove_green_background_ready. by eapply crop_well_formed.
Qed.

(** C7: on an RGBA image that holds one pixel per position, trimming
    returns the image itself when every pixel is transparent; when some
    pixel is not, [getbbox] returns the bounding box of the pixels that
    are not transparent and the result is the crop to it, which has the
    size of the box and the pixels of the image inside it. The image of
    every grid cell is trimmed from such an image. *)
Theorem crop_transparent_borders_spec :
  (∀ img,
     im_mode img = RGBA → well_formed img →
     (Forall transparent (getdata img) →
        crop_transparent_borders img = Py.Ok img) ∧
     (Exists (λ p, ¬ transparent p) (getdata img) →
        ∃ b img',
          getbbox img = Some b ∧ bounding_box img b ∧
          crop img b = Py.Ok img' ∧
          crop_transparent_borders img = Py.Ok img' ∧
          region img b img')) ∧
  (∀ sprite_sheet row col,
     ∃ cell,
       cell_card sprite_sheet row col = crop_transparent_borders cell ∧
       im_mode cell = RGBA ∧ well_formed cell).
Proof.
  split; [|apply cell_card_trims].
  intros img Hm Hwf. split.
  - intros Hall. unfold crop_transparent_borders.
    by rewrite getbbox_transparent.
  - intros Hex.
    destruct (getbbox_visible img Hm Hwf Hex) as (b & Hbb & Hbox).
    destruct (crop_bounding_box img b Hwf Hbox) as (img' & Hcrop & Hreg).
    exists b, img'. unfold crop_transparent_borders. by rewrite Hbb.
Qed.

(** C7 on a transparent image of two pixels. *)
Lemma crop_transparent_borders_spec_witness :
  crop_transparent_borders (Image RGBA 2 1 [(0, 0, 0, 0); (9, 9, 9, 0)])
  = Py.Ok (Image RGBA 2 1 [(0, 0, 0, 0); (9, 9, 9, 0)]).
Proof.
  apply (proj1 crop_transparent_borders_spec);
    [reflexivity | reflexivity | repeat constructor].
Defined.

(** Trimming a 3x3 image with two visible pixels in its middle row. *)
Example crop_transparent_borders_example :
  crop_transparent_borders
    (Image RGBA 3 3 [(0, 0, 0, 0); (0, 0, 0, 0); (0, 0, 0, 0);
                     (0, 0, 0, 0); (1, 1, 1, 9); (2, 2, 2, 7);
                     (0, 0, 0, 0); (0, 0, 0, 0); (0, 0, 0, 0)])
  = Py.Ok (Image RGBA 2 1 [(1, 1, 1, 9); (2, 2, 2, 7)]).
Proof. reflexivity. Qed.

End bounding_boxes.

(** ** The grid loop of the slicer *)

Section slicer_loop.
Import PIL Slice Spec.

(** *** Loops *)

Lemma for_each_app {A S} (xs ys : list A) (f : A → S → Py.result S) st :
  Py.for_each (xs ++ ys) f st = Py.for_each xs f st ≫= Py.for_each ys f.
Proof.
  revert st. induction xs as [|x xs IH]; intros st; [done|].
  simpl. destruct (f x st) as [st'|e]; [simpl|done]. apply IH.
Qed.

Lemma for_each_pairs {A B S} (x : A) (ys : list B)
    (f : A → B → S → Py.result S) st :
  Py.for_each (ys ≫= λ y, [(x, y)]) (λ xy, f xy.1 xy.2) st
  = Py.for_each ys (f x) st.
Proof.
  revert st. induction ys as [|y ys IH]; intros st; [done|].
  simpl. destruct (f x y st) as [st'|e]; [simpl|done]. apply IH.
Qed.

Lemma for_each_nested {A B S} (xs : list A) (ys : list B)
    (f : A → B → S → Py.result S) st :
  Py.for_each xs (λ x, Py.for_each ys (f x)) st
  = Py.for_each (x ← xs; y ← ys; [(x, y)]) (λ xy, f xy.1 xy.2) st.
Proof.
  revert st. induction xs as [|x xs IH]; intros st; [done|].
  rewrite bind_cons, for_each_app, for_each_pairs. simpl.
  destruct (Py.for_each ys (f x) st) as [st'|e]; [simpl|done]. apply IH.
Qed.

Lemma slice_grid_cells card_map sprite_sheet st :
  slice_grid card_map sprite_sheet st
  = Py.for_each grid_cells
      (λ rc, slice_cell card_map sprite_sheet rc.1 rc.2) st.
Proof. unfold slice_grid, grid_cells. apply for_each_nested. Qed.

(** *** The cells never raise on a table that covers the grid *)

Lemma index_Ok {A} (l : list A) (i : Z) :
  0 ≤ i < Z.of_nat (length l) →
  ∃ a, Py.index l i = Py.Ok a ∧ l !! Z.to_nat i = Some a.
Proof.
  intros Hi. unfold Py.index.
  replace (i <? 0) with false by (symmetry; apply Z.ltb_ge; lia).
  replace ((0 <=? i) && (i <? Z.of_nat (length l))) with true
    by (symmetry; rewrite andb_true_iff, Z.leb_le, Z.ltb_lt; lia).
  destruct (lookup_lt_is_Some_2 l (Z.to_nat i)) as [a Ha]; [lia|].
  exists a. by rewrite Ha.
Qed.

Lemma cell_name_Ok card_map row col :
  covers_grid card_map → 0 ≤ row < ROWS → 0 ≤ col < COLS →
  ∃ name, cell_name card_map row col = Py.Ok name.
Proof.
  intros [Hrows Hcols] Hr Hc. unfold ROWS, COLS in *. unfold cell_name.
  destruct (index_Ok card_map row) as (card_row & -> & Hlk); [lia|].
  simpl.
  assert (Hlen : (Z.to_nat 9 ≤ length card_row)%nat).
  { rewrite Forall_forall in Hcols. apply Hcols.
    apply list_elem_of_lookup. exists (Z.to_nat row).
    rewrite lookup_take_lt by lia. done. }
  destruct (index_Ok card_row col) as (name & -> & _); [lia|]. eauto.
Qed.

Lemma crop_transparent_borders_Ok img :
  ∃ img', crop_transparent_borders img = Py.Ok img'.
Proof.
  unfold crop_transparent_borders.
  destruct (getbbox img) as [[[[x0 y0] x1] y1]|] eqn:Hbb; [|eauto].
  destruct (getbbox_Some _ _ _ _ _ Hbb) as (Hin & [y Hl] & _ & [x Hu] & _).
  destruct (Hin _ _ Hl) as [Hx _]. destruct (Hin _ _ Hu) as [_ Hy].
  destruct (crop_Ok img x0 y0 x1 y1) as (img' & -> & _); [lia..|]. eauto.
Qed.

Lemma cell_card_Ok sprite_sheet row col :
  ∃ card, cell_card sprite_sheet row col = Py.Ok card.
Proof.
  unfold cell_card. cbv zeta.
  destruct (crop_Ok sprite_sheet
              (FIRST_CARD_X + col * (CARD_WIDTH + H_GAP))
              (FIRST_CARD_Y + row * (CARD_HEIGHT + V_GAP))
              (FIRST_CARD_X + col * (CARD_WIDTH + H_GAP) + CARD_WIDTH)
              (FIRST_CARD_Y + row * (CARD_HEIGHT + V_GAP) + CARD_HEIGHT))
    as (card & -> & _); [unfold CARD_WIDTH; lia | unfold CARD_HEIGHT; lia|].
  simpl. apply crop_transparent_borders_Ok.
Qed.

Lemma elem_of_grid_cells row col :
  (row, col) ∈ grid_cells ↔ 0 ≤ row < ROWS ∧ 0 ≤ col < COLS.
Proof.
  unfold grid_cells, Py.range. rewrite list_elem_of_bind. split.
  - intros (r & Hin & Hr). apply list_elem_of_bind in Hin as (c & Hin & Hc).
    apply list_elem_of_singleton in Hin as [= -> ->].
    apply elem_of_seqZ in Hr, Hc. lia.
  - intros [Hr Hc]. exists row. split; [|apply elem_of_seqZ; lia].
    apply list_elem_of_bind. exists col.
    split; [apply list_elem_of_here | apply elem_of_seqZ; lia].
Qed.

Lemma cell_infos_exist card_map sprite_sheet :
  covers_grid card_map →
  ∃ infos, Forall2 (cell_info card_map sprite_sheet) grid_cells infos.
Proof.
  intros Hcov.
  assert (Hall : Forall (λ rc, ∃ info, cell_info card_map sprite_sheet rc info)
                        grid_cells).
  { apply Forall_forall. intros [row col] [Hr Hc]%elem_of_grid_cells.
    destruct (cell_name_Ok card_map row col Hcov Hr Hc) as [name Hname].
    destruct (cell_card_Ok sprite_sheet row col) as [card Hcard].
    by exists (name, card). }
  induction Hall as [|rc cells [info Hinfo] _ [infos IH]].
  - exists []. constructor.
  - exists (info :: infos). by constructor.
Qed.

(** *** The loop body and the loop as functions of the cell's name and image *)

Lemma slice_cell_record card_map sprite_sheet rc info st :
  cell_info card_map sprite_sheet rc info →
  slice_cell card_map sprite_sheet rc.1 rc.2 st = Py.Ok (record_cell st info).
Proof.
  destruct info as [name card]. intros [Hname Hcard]. simpl in *.
  unfold slice_cell. rewrite Hcard, bind_Ok, Hname, bind_Ok.
  unfold record_cell. by destruct (decide (name ∈ seen_cards st)).
Qed.

Lemma for_each_cells card_map sprite_sheet cells infos st :
  Forall2 (cell_info card_map sprite_sheet) cells infos →
  Py.for_each cells (λ rc, slice_cell card_map sprite_sheet rc.1 rc.2) st
  = Py.Ok (foldl record_cell st infos).
Proof.
  intros H. revert st.
  induction H as [|rc info cells infos Hinfo _ IH]; intros st; [done|].
  simpl. rewrite (slice_cell_record _ _ _ _ _ Hinfo), bind_Ok. apply IH.
Qed.

Lemma foldl_record_cell st infos :
  trace (foldl record_cell st infos)
    = trace st ++ cell_events (seen_cards st) infos ∧
  seen_cards (foldl record_cell st infos)
    = list_to_set infos.*1 ∪ seen_cards st ∧
  card_count (foldl record_cell st infos)
    = card_count st
      + Z.of_nat (length (saved_paths (cell_events (seen_cards st) infos))).
Proof.
  revert st. induction infos as [|[name card] infos IH]; intros st.
  - simpl. rewrite app_nil_r, (left_id_L ∅ (∪)).
    split_and!; [done..|unfold saved_paths; simpl; lia].
  - change (foldl record_cell st ((name, card) :: infos))
      with (foldl record_cell (record_cell st (name, card)) infos).
    destruct (IH (record_cell st (name, card))) as (-> & -> & ->).
    clear IH. unfold record_cell. simpl.
    destruct (decide (name ∈ seen_cards st)) as [Hin|Hnin]; simpl.
    + rewrite <- app_assoc. split_and!; [done| |done].
      apply set_eq. intros x. set_unfold. intuition congruence.
    + rewrite <- app_assoc. split_and!; [done| |].
      * apply set_eq. intros x. set_unfold. intuition congruence.
      * unfold saved_paths. simpl. lia.
Qed.

End slicer_loop.

Section slicer_events.
Import PIL Slice Spec.

(** *** Strings: report lines and output paths *)

Lemma strip_prefix_skipped_line name :
  strip_prefix "⊘ Skipped duplicate: " (skipped_line name) = Some name.
Proof. reflexivity. Qed.

Lemma strip_prefix_saved_line filename card :
  strip_prefix "⊘ Skipped duplicate: " (saved_line filename card) = None.
Proof. reflexivity. Qed.

Lemma string_length_app (s t : string) :
  String.length (s +:+ t) = (String.length s + String.length t)%nat.
Proof.
  induction s as [|c s IH]; [done|].
  change (S (String.length (s +:+ t)) = S (String.length s + String.length t)).
  by rewrite IH.
Qed.

Lemma string_app_inj_r (s1 s2 t : string) : s1 +:+ t = s2 +:+ t → s1 = s2.
Proof.
  revert s2. induction s1 as [|a s1 IH]; intros [|b s2] H.
  - done.
  - apply (f_equal String.length) in H.
    change (String.length t = S (String.length (s2 +:+ t))) in H.
    rewrite string_length_app in H. lia.
  - apply (f_equal String.length) in H.
    change (S (String.length (s1 +:+ t)) = String.length t) in H.
    rewrite string_length_app in H. lia.
  - change (String a (s1 +:+ t) = String b (s2 +:+ t)) in H.
    injection H as -> H. f_equal. by apply IH.
Qed.

Lemma output_path_cases name :
  output_path name = name +:+ ".png" ∧ (∃ s, name = String "/" s) ∨
  output_path name = "../public/cards/" +:+ name +:+ ".png" ∧
    ¬ (∃ s, name = String "/" s).
Proof.
  unfold output_path, Py.path_join.
  destruct name as [|c name].
  - right. split; [done|]. by intros [s ?].
  - change (String c name +:+ ".png") with (String c (name +:+ ".png")).
    unfold Py.starts_with_slash. case_bool_decide as Hc.
    + left. subst c. eauto.
    + right. split; [done|]. intros [s [= ? ?]]. done.
Qed.

Global Instance output_path_inj : Inj (=) (=) output_path.
Proof.
  intros n m H.
  destruct (output_path_cases n) as [[Hn [s ->]]|[Hn Hns]];
    destruct (output_path_cases m) as [[Hm [s' ->]]|[Hm Hms]];
    rewrite Hn, Hm in H.
  - by apply string_app_inj_r in H.
  - discriminate H.
  - discriminate H.
  - apply (inj (String.app _)) in H. by apply string_app_inj_r in H.
Qed.

(** *** Reading traces *)

Lemma writes_to_app p tr1 tr2 :
  writes_to p (tr1 ++ tr2) = writes_to p tr1 ++ writes_to p tr2.
Proof. apply omap_app. Qed.

Lemma saved_paths_app tr1 tr2 :
  saved_paths (tr1 ++ tr2) = saved_paths tr1 ++ saved_paths tr2.
Proof. apply omap_app. Qed.

Lemma skipped_names_app tr1 tr2 :
  skipped_names (tr1 ++ tr2) = skipped_names tr1 ++ skipped_names tr2.
Proof. apply omap_app. Qed.

Lemma files_after_lookup tr fs p :
  files_after tr fs !! p
  = match last (writes_to p tr) with
    | Some img => Some img
    | None => fs !! p
    end.
Proof.
  unfold files_after.
  induction tr as [|e tr IH] using rev_ind; [done|].
  rewrite foldl_app, writes_to_app. simpl.
  destruct e as [q|line|q img]; simpl;
    rewrite ?app_nil_r; [done..|].
  unfold writes_to at 1. simpl.
  destruct (decide (q = p)) as [->|Hne]; simpl.
  - by rewrite last_snoc, lookup_insert_eq.
  - by rewrite app_nil_r, lookup_insert_ne.
Qed.

Lemma writes_to_Save p q img tr :
  writes_to p (Save q img :: tr)
  = (if decide (q = p) then [img] else []) ++ writes_to p tr.
Proof. unfold writes_to. simpl. by destruct (decide (q = p)). Qed.

Lemma writes_to_Print p line tr :
  writes_to p (Print line :: tr) = writes_to p tr.
Proof. done. Qed.

Lemma saved_paths_Save q img tr :
  saved_paths (Save q img :: tr) = q :: saved_paths tr.
Proof. done. Qed.

Lemma saved_paths_Print line tr :
  saved_paths (Print line :: tr) = saved_paths tr.
Proof. done. Qed.

Lemma skipped_names_skipped name tr :
  skipped_names (Print (skipped_line name) :: tr) = name :: skipped_names tr.
Proof. done. Qed.

Lemma skipped_names_saved q img filename card tr :
  skipped_names (Save q img :: Print (saved_line filename card) :: tr)
  = skipped_names tr.
Proof. done. Qed.

(** *** The events of the loop *)

Lemma writes_to_seen seen infos name :
  name ∈ seen → writes_to (output_path name) (cell_events seen infos) = [].
Proof.
  revert seen. induction infos as [|[m c] infos IH]; intros seen Hin; [done|].
  simpl. destruct (decide (m ∈ seen)) as [Hm|Hm].
  - rewrite writes_to_Print. by apply IH.
  - rewrite writes_to_Save, writes_to_Print.
    destruct (decide (output_path m = output_path name)) as [Heq|_].
    + apply (inj output_path) in Heq. by subst.
    + apply IH. apply elem_of_union. by right.
Qed.

(** The first cell with a name writes its image, and nothing else is
    written at that path. *)
Lemma writes_to_first seen infos k name card :
  infos !! k = Some (name, card) → name ∉ (take k infos).*1 → name ∉ seen →
  writes_to (output_path name) (cell_events seen infos) = [card].
Proof.
  revert seen k.
  induction infos as [|[m c] infos IH]; intros seen k Hk Hfirst Hseen;
    [done|].
  destruct k as [|k]; simpl in Hk.
  - injection Hk as -> ->. simpl.
    destruct (decide (name ∈ seen)); [done|].
    rewrite writes_to_Save, writes_to_Print.
    destruct (decide (output_path name = output_path name)); [|done].
    rewrite writes_to_seen; [done|]. apply elem_of_union. left.
    by apply elem_of_singleton.
  - simpl in Hfirst. apply not_elem_of_cons in Hfirst as [Hne Hfirst].
    simpl. destruct (decide (m ∈ seen)) as [Hm|Hm].
    + rewrite writes_to_Print. by apply (IH seen k).
    + rewrite writes_to_Save, writes_to_Print.
      destruct (decide (output_path m = output_path name)) as [Heq|_].
      * apply (inj output_path) in Heq. by subst.
      * apply (IH _ k); [done..|].
        rewrite elem_of_union, elem_of_singleton. intros [?|?]; by subst.
Qed.

Lemma occurrences_cons name n names :
  occurrences name (n :: names)
  = ((if decide (n = name) then 1 else 0) + occurrences name names)%nat.
Proof.
  unfold occurrences. rewrite filter_cons.
  by destruct (decide (n = name)).
Qed.

Lemma occurrences_zero name names :
  name ∉ names → occurrences name names = 0%nat.
Proof.
  induction names as [|n names IH]; [done|].
  intros [Hne Hnin]%not_elem_of_cons. rewrite occurrences_cons, IH by done.
  by destruct (decide (n = name)); [subst|].
Qed.

(** Every cell whose name has been saved before, in this run or in
    [seen], is reported once. *)
Lemma skipped_names_count seen infos name :
  (occurrences name (skipped_names (cell_events seen infos))
   + (if decide (name ∈ seen) then 0
      else if decide (name ∈ infos.*1) then 1 else 0))%nat
  = occurrences name infos.*1.
Proof.
  revert seen. induction infos as [|[m c] infos IH]; intros seen.
  - simpl. destruct (decide (name ∈ seen)); [done|].
    destruct (decide (name ∈ [])) as [Hin|]; [|done].
    by apply elem_of_nil in Hin.
  - rewrite fmap_cons. cbn [cell_events fst]. rewrite occurrences_cons.
    destruct (decide (m ∈ seen)) as [Hm|Hm].
    + rewrite skipped_names_skipped, occurrences_cons, <- (IH seen).
      repeat case_decide; try lia; exfalso; set_unfold; intuition congruence.
    + rewrite skipped_names_saved, <- (IH ({[m]} ∪ seen)).
      repeat case_decide; try lia; exfalso; set_unfold; intuition congruence.
Qed.

(** The paths written are those of the names not seen before, each
    once. *)
Lemma saved_paths_cell_events seen infos :
  ∃ names,
    saved_paths (cell_events seen infos) = output_path <$> names ∧
    NoDup names ∧
    ∀ n, n ∈ names ↔ n ∈ infos.*1 ∧ n ∉ seen.
Proof.
  revert seen. induction infos as [|[m c] infos IH]; intros seen.
  - exists []. split; [done|]. split; [constructor|].
    intros n. simpl. rewrite elem_of_nil. tauto.
  - rewrite fmap_cons. cbn [cell_events fst].
    destruct (decide (m ∈ seen)) as [Hm|Hm].
    + destruct (IH seen) as (names & Hsp & Hnd & Hel).
      exists names. split; [done|]. split; [done|].
      intros n. rewrite Hel, elem_of_cons. intuition congruence.
    + destruct (IH ({[m]} ∪ seen)) as (names & Hsp & Hnd & Hel).
      exists (m :: names). split; [|split].
      * by rewrite saved_paths_Save, saved_paths_Print, Hsp.
      * constructor; [|done]. rewrite Hel, elem_of_union, elem_of_singleton.
        tauto.
      * intros n.
        rewrite !elem_of_cons, Hel, elem_of_union, elem_of_singleton.
        destruct (decide (n = m)); intuition congruence.
Qed.

Lemma saved_paths_NoDup seen infos :
  NoDup (saved_paths (cell_events seen infos)).
Proof.
  destruct (saved_paths_cell_events seen infos) as (names & -> & Hnd & _).
  by apply (NoDup_fmap_2 _).
Qed.

(** With pairwise distinct names, none seen before, every cell is
    written, in order. *)
Lemma saved_paths_distinct seen infos :
  NoDup infos.*1 → (∀ n, n ∈ infos.*1 → n ∉ seen) →
  cell_events seen infos
    = infos ≫= (λ i, [Save (output_path i.1) i.2;
                       Print (saved_line (i.1 +:+ ".png") i.2)]).
Proof.
  revert seen. induction infos as [|[m c] infos IH]; intros seen Hnd Hs;
    [done|].
  rewrite fmap_cons in Hnd, Hs. apply NoDup_cons in Hnd as [Hm Hnd].
  rewrite bind_cons. cbn [cell_events fst snd].
  destruct (decide (m ∈ seen)) as [Hin|_].
  - destruct (Hs m); [apply list_elem_of_here | done].
  - simpl. do 2 f_equal. apply IH; [done|].
    intros n Hn. rewrite elem_of_union, elem_of_singleton.
    intros [->|Hn']; [done|].
    by apply (Hs n); [apply list_elem_of_further|].
Qed.

End slicer_events.

(** ** A run of the slicer *)

Section slicer_run.
Import PIL Slice Spec.

Lemma occurrences_app name l1 l2 :
  occurrences name (l1 ++ l2)
  = (occurrences name l1 + occurrences name l2)%nat.
Proof. unfold occurrences. by rewrite filter_app, length_app. Qed.

Lemma occurrences_pos name names :
  name ∈ names ↔ (0 < occurrences name names)%nat.
Proof.
  split.
  - intros Hin. apply list_elem_of_split in Hin as (l1 & l2 & ->).
    rewrite occurrences_app, occurrences_cons.
    destruct (decide (name = name)); [lia|done].
  - intros Hpos. destruct (decide (name ∈ names)) as [|Hnin]; [done|].
    rewrite occurrences_zero in Hpos by done. lia.
Qed.

(** A run on a table that covers the grid returns its trace: some lines,
    the events of the loop, and some more lines. *)
Lemma slice_cards_on_trace card_map fs sprite_sheet infos :
  fs !! INPUT_IMAGE = Some sprite_sheet →
  Forall2 (cell_info card_map sprite_sheet) grid_cells infos →
  ∃ header footer,
    slice_cards_on card_map fs
      = Py.Ok (header ++ cell_events ∅ infos ++ footer) ∧
    saved_paths header = [] ∧ saved_paths footer = [] ∧
    (∀ p, writes_to p header = []) ∧ (∀ p, writes_to p footer = []) ∧
    skipped_names header = [] ∧ skipped_names footer = [] ∧
    Print ("✅ Successfully sliced "
           +:+ Py.str (Z.of_nat (length (saved_paths (cell_events ∅ infos))))
           +:+ " unique cards!") ∈ footer.
Proof.
  intros Hfs Hinfos. unfold slice_cards_on, open. rewrite Hfs, bind_Ok.
  unfold size. cbv zeta.
  rewrite slice_grid_cells, (for_each_cells _ _ _ _ _ Hinfos), bind_Ok.
  match goal with
  | |- context [foldl record_cell ?st0 infos] =>
      destruct (foldl_record_cell st0 infos) as (-> & -> & ->)
  end.
  cbn [trace seen_cards card_count].
  eexists _, _. rewrite <- app_assoc. split; [reflexivity|].
  split_and!; try done.
  apply list_elem_of_further, list_elem_of_here.
Qed.

Lemma later_occurrence_count (names : list string) k name :
  names !! k = Some name → name ∈ take k names →
  (2 ≤ occurrences name names)%nat.
Proof.
  intros Hk Hin.
  rewrite <- (take_drop_middle names k name Hk).
  rewrite occurrences_app, occurrences_cons.
  apply occurrences_pos in Hin.
  destruct (decide (name = name)); [lia|done].
Qed.

(** C3: on a table that has a name for each of the 6x9 cells, the run
    returns, and no path is written twice. For the first cell, in row-major
    order, that carries a name, the image of that cell is the one write to
    the file of the name and is the content of the file after the run, and
    the name is reported as skipped once for each later cell that carries
    it; so a later cell with the name is reported and writes nothing. *)
Theorem slice_cards_first_occurrence_wins
    (card_map : list (list string)) (fs : gmap string image)
    (sprite_sheet : image) :
  fs !! INPUT_IMAGE = Some sprite_sheet →
  covers_grid card_map →
  ∃ tr infos,
    slice_cards_on card_map fs = Py.Ok tr ∧
    Forall2 (cell_info card_map sprite_sheet) grid_cells infos ∧
    NoDup (saved_paths tr) ∧
    (∀ k name card,
       infos !! k = Some (name, card) → name ∉ (take k infos).*1 →
       writes_to (output_path name) tr = [card] ∧
       files_after tr fs !! output_path name = Some card ∧
       S (occurrences name (skipped_names tr)) = occurrences name infos.*1) ∧
    (∀ k name card,
       infos !! k = Some (name, card) → name ∈ (take k infos).*1 →
       name ∈ skipped_names tr).
Proof.
  intros Hfs Hcov.
  destruct (cell_infos_exist card_map sprite_sheet Hcov) as [infos Hinfos].
  destruct (slice_cards_on_trace card_map fs sprite_sheet infos Hfs Hinfos)
    as (header & footer & Hrun & Hsh & Hsf & Hwh & Hwf & Hkh & Hkf & _).
  exists (header ++ cell_events ∅ infos ++ footer), infos.
  assert (Hskip : ∀ name, name ∈ infos.*1 →
            S (occurrences name
                 (skipped_names (header ++ cell_events ∅ infos ++ footer)))
            = occurrences name infos.*1).
  { intros name Hin. rewrite !skipped_names_app, Hkh, Hkf, app_nil_r. simpl.
    rewrite <- (skipped_names_count ∅ infos name).
    destruct (decide (name ∈ ∅)) as [Hemp|_];
      [by apply not_elem_of_empty in Hemp|].
    destruct (decide (name ∈ infos.*1)); [lia|done]. }
  split_and!; [done..| | |].
  - rewrite !saved_paths_app, Hsh, Hsf, app_nil_r. apply saved_paths_NoDup.
  - intros k name card Hk Hfirst.
    assert (Hw : writes_to (output_path name)
                   (header ++ cell_events ∅ infos ++ footer) = [card]).
    { rewrite !writes_to_app, Hwh, Hwf, app_nil_r. simpl.
      apply (writes_to_first ∅ infos k); [done..|]. apply not_elem_of_empty. }
    split_and!; [done| |].
    + by rewrite files_after_lookup, Hw.
    + apply Hskip. apply list_elem_of_fmap. exists (name, card).
      split; [done|]. by eapply list_elem_of_lookup_2.
  - intros k name card Hk Hlater.
    assert (Hk' : infos.*1 !! k = Some name)
      by by rewrite list_lookup_fmap, Hk.
    rewrite fmap_take in Hlater.
    pose proof (later_occurrence_count _ _ _ Hk' Hlater) as H2.
    apply occurrences_pos.
    rewrite <- Hskip in H2 by by eapply list_elem_of_lookup_2. lia.
Qed.

(** C3 on a table whose 54 cells all carry the name of the ace of spades,
    with an empty sprite sheet. *)
Lemma slice_cards_first_occurrence_wins_witness :
  ∃ tr infos,
    slice_cards_on (replicate 6 (replicate 9 "A_spades"))
                   {[INPUT_IMAGE := Image RGB 0 0 []]} = Py.Ok tr ∧
    Forall2 (cell_info (replicate 6 (replicate 9 "A_spades"))
                       (Image RGB 0 0 []))
            grid_cells infos ∧
    NoDup (saved_paths tr) ∧
    (∀ k name card,
       infos !! k = Some (name, card) → name ∉ (take k infos).*1 →
       writes_to (output_path name) tr = [card] ∧
       files_after tr {[INPUT_IMAGE := Image RGB 0 0 []]}
         !! output_path name = Some card ∧
       S (occurrences name (skipped_names tr)) = occurrences name infos.*1) ∧
    (∀ k name card,
       infos !! k = Some (name, card) → name ∈ (take k infos).*1 →
       name ∈ skipped_names tr).
Proof.
  apply slice_cards_first_occurrence_wins.
  - vm_compute. reflexivity.
  - split; [vm_compute; lia|]. vm_compute. repeat constructor.
Defined.

(** *** The run on [CARD_MAP] *)

Lemma cell_info_names card_map sprite_sheet cells infos :
  Forall2 (cell_info card_map sprite_sheet) cells infos →
  Forall2 (λ rc name, cell_name card_map rc.1 rc.2 = Py.Ok name)
          cells infos.*1.
Proof.
  induction 1 as [|rc info cells infos [Hname _] _ IH]; constructor; done.
Qed.

Lemma CARD_MAP_cells :
  Forall2 (λ rc name, cell_name CARD_MAP rc.1 rc.2 = Py.Ok name)
          grid_cells (concat CARD_MAP).
Proof.
  let l := eval vm_compute in grid_cells in change grid_cells with l.
  let l := eval vm_compute in (concat CARD_MAP) in
  change (concat CARD_MAP) with l.
  repeat (constructor; [reflexivity|]). constructor.
Qed.

Lemma CARD_MAP_names sprite_sheet infos :
  Forall2 (cell_info CARD_MAP sprite_sheet) grid_cells infos →
  infos.*1 = concat CARD_MAP.
Proof.
  intros H%cell_info_names. pose proof CARD_MAP_cells as H'.
  revert H H'. generalize (concat CARD_MAP), infos.*1, grid_cells.
  intros names1 names2 cells H2. revert names1.
  induction H2 as [|rc n2 cells names2 Hn2 _ IH]; intros names1 H1;
    inversion H1 as [|? n1 ? names1' Hn1 H1']; subst; [done|].
  f_equal; [congruence | by apply IH].
Qed.

Lemma CARD_MAP_covers_grid : covers_grid CARD_MAP.
Proof. split; [vm_compute; lia|]. vm_compute. repeat constructor. Qed.

(** C2: a run on the sprite sheet returns; it writes the 54 files of the
    table, one per cell in row-major order and none twice: the 52
    "<rank>_<suit>.png" files, "joker.png" and "back.png". No cell is
    skipped, and the run reports 54 unique cards. *)
Theorem slice_cards_writes (fs : gmap string image) (sprite_sheet : image) :
  fs !! INPUT_IMAGE = Some sprite_sheet →
  ∃ tr,
    slice_cards fs = Py.Ok tr ∧
    saved_paths tr = output_path <$> concat CARD_MAP ∧
    NoDup (saved_paths tr) ∧
    saved_paths tr ≡ₚ Py.path_join OUTPUT_DIR <$> expected_filenames ∧
    length expected_filenames = 54%nat ∧
    skipped_names tr = [] ∧
    Print "✅ Successfully sliced 54 unique cards!" ∈ tr.
Proof.
  intros Hfs. unfold slice_cards.
  destruct (cell_infos_exist CARD_MAP sprite_sheet CARD_MAP_covers_grid)
    as [infos Hinfos].
  destruct (slice_cards_on_trace CARD_MAP fs sprite_sheet infos Hfs Hinfos)
    as (header & footer & Hrun & Hsh & Hsf & _ & _ & Hkh & Hkf & Hcount).
  pose proof (CARD_MAP_names _ _ Hinfos) as Hnames.
  pose proof CARD_MAP_NoDup as Hnd. pose proof CARD_MAP_length as Hlen.
  assert (Hev : cell_events ∅ infos
                = infos ≫= (λ i, [Save (output_path i.1) i.2;
                                   Print (saved_line (i.1 +:+ ".png") i.2)])).
  { apply saved_paths_distinct; [by rewrite Hnames|].
    intros n _. apply not_elem_of_empty. }
  assert (Hsaved : saved_paths (cell_events ∅ infos)
                   = output_path <$> concat CARD_MAP).
  { rewrite Hev, <- Hnames. clear.
    induction infos as [|[n c] infos IH]; [done|].
    rewrite bind_cons, saved_paths_app, IH. done. }
  assert (Hskipped : skipped_names (cell_events ∅ infos) = []).
  { rewrite Hev. clear.
    induction infos as [|[n c] infos IH]; [done|].
    rewrite bind_cons, skipped_names_app, IH. done. }
  exists (header ++ cell_events ∅ infos ++ footer).
  assert (Hpaths : saved_paths (header ++ cell_events ∅ infos ++ footer)
                   = output_path <$> concat CARD_MAP)
    by by rewrite !saved_paths_app, Hsh, Hsf, app_nil_r.
  split_and!; [done|done| | |done| |].
  - rewrite Hpaths. by apply (NoDup_fmap_2 _).
  - rewrite Hpaths. decide_by_eval.
  - by rewrite !skipped_names_app, Hkh, Hkf, Hskipped.
  - rewrite Hsaved, length_fmap, Hlen in Hcount.
    apply elem_of_app. right. apply elem_of_app. by right.
Qed.

(** C2 on a file system that holds an empty sprite sheet. *)
Lemma slice_cards_writes_witness :
  ∃ tr,
    slice_cards {[INPUT_IMAGE := Image RGB 0 0 []]} = Py.Ok tr ∧
    saved_paths tr = output_path <$> concat CARD_MAP ∧
    NoDup (saved_paths tr) ∧
    saved_paths tr ≡ₚ Py.path_join OUTPUT_DIR <$> expected_filenames ∧
    length expected_filenames = 54%nat ∧
    skipped_names tr = [] ∧
    Print "✅ Successfully sliced 54 unique cards!" ∈ tr.
Proof.
  apply (slice_cards_writes _ (Image RGB 0 0 [])).
  vm_compute. reflexivity.
Defined.

End slicer_run.

(** ** The scans of the analyzer *)

Section analyzer.
Import PIL Analyze Spec.

Lemma color_type_classified r g b : classified r g b (color_type r g b).
Proof.
  unfold classified, color_type.
  destruct (g >? r + 10) eqn:E1; destruct (g >? b + 5) eqn:E2;
    destruct (r >? 200) eqn:E3; destruct (g >? 200) eqn:E4;
    destruct (b >? 200) eqn:E5; simpl;
    rewrite ?Z.gtb_ltb, ?Z.ltb_lt, ?Z.ltb_ge in *;
    first [ left; split_and!; [lia | lia | done]
          | right; left; split_and!; [lia | lia | lia | lia | done]
          | right; right; split_and!; [lia | lia | done] ].
Qed.

Lemma pixel_at_convert_RGB img x y :
  pixel_at (convert img RGB) x y = opaque <$> pixel_at img x y.
Proof.
  assert (Hc : convert img RGB
               = Image RGB (width img) (height img) (opaque <$> getdata img))
    by (unfold convert; by destruct (im_mode img)).
  rewrite Hc. unfold pixel_at, in_bounds. simpl.
  destruct (_ && _); [|done]. apply list_lookup_fmap.
Qed.

(** Reading a pixel inside the image, after the conversion to RGB. *)
Lemma getpixel_convert_RGB img x y :
  well_formed img →
  0 ≤ x < Z.of_nat (width img) → 0 ≤ y < Z.of_nat (height img) →
  ∃ r g b a,
    pixel_at img x y = Some (r, g, b, a) ∧
    getpixel (convert img RGB) (x, y) = Py.Ok (r, g, b, 255).
Proof.
  intros Hwf Hx Hy.
  destruct (pixel_at_is_Some img x y Hwf Hx Hy) as [[[[r g] b] a] Hp].
  exists r, g, b, a. split; [done|].
  unfold getpixel.
  replace (x <? 0) with false by (symmetry; apply Z.ltb_ge; lia).
  replace (y <? 0) with false by (symmetry; apply Z.ltb_ge; lia).
  by rewrite pixel_at_convert_RGB, Hp.
Qed.

(** A scan loop appends one line per sampled position. *)
Lemma for_each_scan (img img_rgb : image) (axis : string)
    (pos : Z → Z * Z) (xs : list Z) (out : list string) :
  (∀ x, x ∈ xs →
     ∃ r g b a, pixel_at img (pos x).1 (pos x).2 = Some (r, g, b, a) ∧
                getpixel img_rgb (pos x) = Py.Ok (r, g, b, 255)) →
  ∃ lines,
    Py.for_each xs
      (λ x out,
         '(r, g, b, _) ← getpixel img_rgb (pos x);
         Py.Ok (out ++ [sample_line axis x r g b]))
      out = Py.Ok (out ++ lines) ∧
    Forall2 (λ x line, reading img axis x (pos x).1 (pos x).2 line) xs lines.
Proof.
  revert out. induction xs as [|x xs IH]; intros out Hxs.
  - exists []. split; [by rewrite app_nil_r | constructor].
  - destruct (Hxs x (list_elem_of_here _ _)) as (r & g & b & a & Hp & Hg).
    destruct (IH (out ++ [sample_line axis x r g b])) as (lines & Hrun & Hall).
    { intros x' Hx'. apply Hxs. by apply list_elem_of_further. }
    exists (sample_line axis x r g b :: lines). split.
    + cbn [Py.for_each]. rewrite Hg, bind_Ok. cbn beta iota.
      rewrite bind_Ok, Hrun. by rewrite <- app_assoc.
    + constructor; [|done].
      exists r, g, b, a, (color_type r g b).
      split; [done|]. split; [apply color_type_classified | done].
Qed.

Lemma range_step_elem lo n step x :
  x ∈ (λ k, lo + step * k) <$> seqZ 0 n → ∃ k, 0 ≤ k < n ∧ x = lo + step * k.
Proof.
  intros (k & -> & Hk)%list_elem_of_fmap. apply elem_of_seqZ in Hk.
  exists k. split; [lia | done].
Qed.

(** C9: on a sprite sheet of at least 891 by 1281 pixels the analyzer
    returns three heading lines, one reading for each of the pixels
    (x, 700) with x = 0, 10, .., 890, the heading of the vertical scan and
    one reading for each of the pixels (225, y) with y = 0, 20, .., 1280.
    A reading shows the bands of the pixel at that position and classifies
    them as GREEN when g > r+10 and g > b+5, otherwise as WHITE when all
    three exceed 200, otherwise as OTHER; so a sample that passes both
    tests is GREEN, not WHITE. *)
Theorem analyzer_classifies_samples :
  (∀ r g b, classified r g b (color_type r g b)) ∧
  (∀ r g b,
     g > r + 10 ∧ g > b + 5 → r > 200 ∧ g > 200 ∧ b > 200 →
     color_type r g b = "GREEN" ∧ color_type r g b ≠ "WHITE") ∧
  (∀ (fs : gmap string image) (img : image),
     fs !! Analyze.INPUT_IMAGE = Some img → well_formed img →
     890 < Z.of_nat (width img) → 1280 < Z.of_nat (height img) →
     ∃ horizontal vertical,
       analyze_sprite_sheet fs
       = Py.Ok
           ([ "Image size: (" +:+ Py.str (Z.of_nat (width img)) +:+ ", "
                +:+ Py.str (Z.of_nat (height img)) +:+ ")";
              Py.nl +:+ "Sampling pixels to find card boundaries...";
              Py.nl +:+
                "Horizontal scan (row at y=700, middle of first card):" ]
            ++ horizontal
            ++ [Py.nl +:+ "Vertical scan (col 0, middle width):"]
            ++ vertical) ∧
       Forall2 (λ x line, reading img "x" x x 700 line)
               ((λ k, 10 * k) <$> seqZ 0 90) horizontal ∧
       Forall2 (λ y line, reading img "y" y 225 y line)
               ((λ k, 20 * k) <$> seqZ 0 65) vertical).
Proof.
  split; [apply color_type_classified|]. split.
  { intros r g b Hgreen Hwhite.
    destruct (color_type_classified r g b)
      as [(_ & _ & ->) | [(Hn & _) | (Hn & _)]]; done. }
  intros fs img Hfs Hwf Hw Hh.
  unfold analyze_sprite_sheet, open. rewrite Hfs, bind_Ok. cbv zeta.
  change (Py.range_step 0 900 10) with ((λ k, 0 + 10 * k) <$> seqZ 0 90).
  change (Py.range_step 0 1300 20) with ((λ k, 0 + 20 * k) <$> seqZ 0 65).
  match goal with
  | |- context [Py.for_each ((λ k, 0 + 10 * k) <$> seqZ 0 90) _ ?out] =>
      destruct (for_each_scan img (convert img RGB) "x" (λ x, (x, 700))
                  ((λ k, 0 + 10 * k) <$> seqZ 0 90) out)
        as (horizontal & Hrun1 & Hall1)
  end.
  { intros x (k & Hk & ->)%range_step_elem.
    apply getpixel_convert_RGB; [done | lia | lia]. }
  cbv beta in Hrun1. rewrite Hrun1, bind_Ok.
  match goal with
  | |- context [Py.for_each ((λ k, 0 + 20 * k) <$> seqZ 0 65) _ ?out] =>
      destruct (for_each_scan img (convert img RGB) "y" (λ y, (225, y))
                  ((λ k, 0 + 20 * k) <$> seqZ 0 65) out)
        as (vertical & Hrun2 & Hall2)
  end.
  { intros y (k & Hk & ->)%range_step_elem.
    apply getpixel_convert_RGB; [done | lia | lia]. }
  cbv beta in Hrun2. rewrite Hrun2.
  exists horizontal, vertical. split; [by rewrite <- !app_assoc|].
  split; [exact Hall1 | exact Hall2].
Qed.

(** C9 on a sheet of 891 by 1281 pixels in the colour of the background,
    and at a sample that passes both the GREEN and the WHITE test. *)
Lemma analyzer_classifies_samples_witness :
  let img :=
    Image RGB 891 1281 (replicate (891 * 1281) (17, 94, 63, 255)) in
  (color_type 201 255 201 = "GREEN" ∧ color_type 201 255 201 ≠ "WHITE") ∧
  ∃ horizontal vertical,
    analyze_sprite_sheet {[Analyze.INPUT_IMAGE := img]}
    = Py.Ok
        ([ "Image size: (" +:+ Py.str (Z.of_nat (width img)) +:+ ", "
             +:+ Py.str (Z.of_nat (height img)) +:+ ")";
           Py.nl +:+ "Sampling pixels to find card boundaries...";
           Py.nl +:+
             "Horizontal scan (row at y=700, middle of first card):" ]
         ++ horizontal
         ++ [Py.nl +:+ "Vertical scan (col 0, middle width):"]
         ++ vertical) ∧
    Forall2 (λ x line, reading img "x" x x 700 line)
            ((λ k, 10 * k) <$> seqZ 0 90) horizontal ∧
    Forall2 (λ y line, reading img "y" y 225 y line)
            ((λ k, 20 * k) <$> seqZ 0 65) vertical.
Proof.
  intros img. split.
  - apply (proj1 (proj2 analyzer_classifies_samples)); lia.
  - apply (proj2 (proj2 analyzer_classifies_samples)
             {[Analyze.INPUT_IMAGE := img]} img).
    + apply lookup_singleton_eq.
    + apply length_replicate.
    + simpl. lia.
    + simpl. lia.
Defined.

End analyzer.

(** ** The verifier on any id and any directory *)

Section verifier_more.
Import Verify Spec Layout.

Lemma index_out_of_range {A} (l : list A) (i : Z) :
  i < - Z.of_nat (length l) ∨ Z.of_nat (length l) ≤ i →
  Py.index l i = Py.Raise Py.IndexError.
Proof.
  intros Hi. unfold Py.index.
  destruct (i <? 0) eqn:E; [apply Z.ltb_lt in E | apply Z.ltb_ge in E].
  - replace ((0 <=? Z.of_nat (length l) + i)
             && (Z.of_nat (length l) + i <? Z.of_nat (length l))) with false;
      [done|].
    symmetry. apply andb_false_iff. left. apply Z.leb_gt. lia.
  - replace ((0 <=? i) && (i <? Z.of_nat (length l))) with false; [done|].
    symmetry. apply andb_false_iff. right. apply Z.ltb_ge. lia.
Qed.

Lemma rank_index_Ok id :
  ∃ rank, Py.index CARD_NAMES ((id - 1) `mod` 13) = Py.Ok rank.
Proof.
  pose proof (Z.mod_pos_bound (id - 1) 13 ltac:(lia)) as Hm.
  destruct (index_Ok CARD_NAMES ((id - 1) `mod` 13)) as (rank & Hr & _);
    [simpl; lia | eauto].
Qed.

(** X1: [card_id_to_filename] returns a file name exactly for the ids
    from -51 to 52 and raises [IndexError] for every other id; an id from
    -51 to 0 gets the file name of the id 52 above it, through the
    negative indices of the two lists. *)
Theorem card_id_to_filename_domain (id : Z) :
  (-51 ≤ id ≤ 52 → ∃ filename, card_id_to_filename id = Py.Ok filename) ∧
  (id < -51 ∨ 52 < id → card_id_to_filename id = Py.Raise Py.IndexError) ∧
  (-51 ≤ id ≤ 0 → card_id_to_filename id = card_id_to_filename (id + 52)).
Proof.
  assert (Hin : ∀ i, -51 ≤ i ≤ 52 →
            ∃ filename, card_id_to_filename i = Py.Ok filename).
  { intros i Hi.
    assert (Hall : Forall (λ i, ∃ f, card_id_to_filename i = Py.Ok f)
                          (seqZ (-51) 104)).
    { let l := eval vm_compute in (seqZ (-51) 104) in
      change (seqZ (-51) 104) with l.
      repeat (apply Forall_cons_2; [by eexists|]). apply Forall_nil_2. }
    rewrite Forall_forall in Hall. apply Hall, elem_of_seqZ. lia. }
  split_and!; [apply Hin| |].
  - intros Hout. unfold card_id_to_filename. cbv zeta.
    destruct (rank_index_Ok id) as [rank ->]. rewrite bind_Ok.
    rewrite index_out_of_range; [done|]. simpl.
    pose proof (Z.div_mod (id - 1) 13 ltac:(lia)) as Hdm.
    pose proof (Z.mod_pos_bound (id - 1) 13 ltac:(lia)) as Hm.
    lia.
  - intros Hid.
    assert (Hall : Forall (λ i, card_id_to_filename i
                                = card_id_to_filename (i + 52))
                          (seqZ (-51) 52)) by decide_by_eval.
    rewrite Forall_forall in Hall. apply Hall, elem_of_seqZ. lia.
Qed.

(** X1 at the ids -51, 53 and -52. *)
Lemma card_id_to_filename_domain_witness :
  card_id_to_filename (-51) = card_id_to_filename 1 ∧
  card_id_to_filename 53 = Py.Raise Py.IndexError ∧
  card_id_to_filename (-52) = Py.Raise Py.IndexError.
Proof.
  split_and!.
  - apply (proj2 (proj2 (card_id_to_filename_domain (-51)))). lia.
  - apply (proj1 (proj2 (card_id_to_filename_domain 53))). lia.
  - apply (proj1 (proj2 (card_id_to_filename_domain (-52)))). lia.
Defined.

(** *** The exhaustive check on any directory *)

Lemma check_card_entry fs id missing :
  1 ≤ id ≤ 52 →
  check_card fs id missing
  = Py.Ok (missing ++ option_list (missing_entry fs id)).
Proof.
  intros Hid. unfold check_card, missing_entry.
  destruct (card_id_to_filename_formula id Hid) as (rank & suit & _ & _ & ->).
  rewrite bind_Ok. cbv zeta.
  destruct (path_exists fs _); simpl; by rewrite ?app_nil_r.
Qed.

Lemma for_each_check_card fs ids missing :
  Forall (λ id, 1 ≤ id ≤ 52) ids →
  Py.for_each ids (check_card fs) missing
  = Py.Ok (missing ++ omap (missing_entry fs) ids).
Proof.
  intros Hids. revert missing.
  induction Hids as [|id ids Hid _ IH]; intros missing.
  - simpl. by rewrite app_nil_r.
  - simpl. rewrite check_card_entry, bind_Ok, IH by done.
    rewrite <- app_assoc. f_equal.
    by destruct (missing_entry fs id).
Qed.

Lemma find_missing_omap fs :
  find_missing fs = Py.Ok (omap (missing_entry fs) (Py.range 1 53)).
Proof.
  unfold find_missing. rewrite for_each_check_card; [done|].
  apply Forall_forall. intros id. apply range_1_53_elem.
Qed.

Lemma missing_entry_Some fs id entry :
  missing_entry fs id = Some entry →
  entry.1 = id ∧ card_id_to_filename id = Py.Ok entry.2 ∧
  path_exists fs (Py.path_join cards_dir entry.2) = false.
Proof.
  unfold missing_entry.
  destruct (card_id_to_filename id) as [f|]; [|done].
  destruct (path_exists fs _) eqn:E; [done|]. by intros [= <-].
Qed.

Lemma omap_missing_ids fs ids :
  (omap (missing_entry fs) ids).*1 `sublist_of` ids.
Proof.
  induction ids as [|id ids IH]; [done|]. simpl.
  destruct (missing_entry fs id) as [entry|] eqn:E.
  - apply missing_entry_Some in E as (<- & _). simpl. by apply sublist_skip.
  - by apply sublist_cons.
Qed.

(** X2: on any directory the exhaustive loop returns; it collects the
    pair [(id, filename)] exactly for the ids from 1 to 52 whose file is
    absent, in ascending order of the ids and each at most once. *)
Theorem find_missing_spec (fs : gset string) :
  ∃ missing,
    find_missing fs = Py.Ok missing ∧
    (∀ id filename,
       (id, filename) ∈ missing ↔
       1 ≤ id ≤ 52 ∧ card_id_to_filename id = Py.Ok filename ∧
       path_exists fs (Py.path_join cards_dir filename) = false) ∧
    missing.*1 `sublist_of` Py.range 1 53.
Proof.
  exists (omap (missing_entry fs) (Py.range 1 53)).
  split; [apply find_missing_omap|]. split; [|apply omap_missing_ids].
  intros id filename. rewrite list_elem_of_omap. split.
  - intros (id' & Hin & Hentry).
    apply missing_entry_Some in Hentry as (Hid & Hf & Hex). simpl in *.
    subst id'. by apply range_1_53_elem in Hin.
  - intros (Hid & Hf & Hex). exists id.
    split; [by apply range_1_53_elem|].
    unfold missing_entry. by rewrite Hf, Hex.
Qed.

Lemma spot_check_line_Ok fs id :
  1 ≤ id ≤ 52 →
  ∃ line, ∀ out, spot_check_line fs id out = Py.Ok (out ++ [line]).
Proof.
  intros Hid. unfold spot_check_line.
  destruct (card_id_to_filename_formula id Hid) as (rank & suit & _ & _ & Hf).
  rewrite Hf. eexists. intros out. rewrite bind_Ok. reflexivity.
Qed.

Lemma for_each_spot_check fs ids out :
  Forall (λ id, 1 ≤ id ≤ 52) ids →
  ∃ lines,
    Py.for_each ids (spot_check_line fs) out = Py.Ok (out ++ lines) ∧
    length lines = length ids.
Proof.
  intros Hids. revert out.
  induction Hids as [|id ids Hid _ IH]; intros out.
  - exists []. by rewrite app_nil_r.
  - cbn [Py.for_each].
    destruct (spot_check_line_Ok fs id Hid) as [line Hline].
    rewrite Hline, bind_Ok.
    destruct (IH (out ++ [line])) as (lines & Hrun & Hlen).
    exists (line :: lines). rewrite Hrun, <- app_assoc.
    split; [done|]. cbn [length]. by rewrite Hlen.
Qed.

Lemma omap_missing_nil fs :
  omap (missing_entry fs) (Py.range 1 53) = [] ↔
  ∀ id filename,
    1 ≤ id ≤ 52 → card_id_to_filename id = Py.Ok filename →
    path_exists fs (Py.path_join cards_dir filename) = true.
Proof.
  split.
  - intros Hnil id filename Hid Hf.
    destruct (path_exists fs _) eqn:E; [done|].
    assert (Hin : (id, filename) ∈ omap (missing_entry fs) (Py.range 1 53)).
    { apply list_elem_of_omap. exists id.
      split; [by apply range_1_53_elem|].
      unfold missing_entry. by rewrite Hf, E. }
    rewrite Hnil in Hin. by apply elem_of_nil in Hin.
  - intros Hall.
    destruct (omap _ _) as [|[id f] l] eqn:E; [done|].
    assert (Hin : (id, f) ∈ omap (missing_entry fs) (Py.range 1 53))
      by (rewrite E; apply list_elem_of_here).
    apply list_elem_of_omap in Hin as (id' & Hin & Hentry).
    apply missing_entry_Some in Hentry as (Hid & Hf & Hex).
    cbn [fst snd] in *. subst id'. apply range_1_53_elem in Hin.
    rewrite (Hall id f) in Hex; done.
Qed.

Lemma report_all_present missing :
  report missing = [Py.nl +:+ "✅ All 52 cards are present!"] ↔ missing = [].
Proof.
  split; [|by intros ->].
  destruct missing as [|e missing]; [done|].
  unfold report. intros H. apply (f_equal length) in H.
  cbn [length] in H. rewrite length_fmap in H. cbn [length] in H. lia.
Qed.

(** [main] never raises: its output is seventeen lines, the summary of
    the exhaustive check and eleven more lines. *)
Lemma main_structure fs :
  ∃ pre post,
    main fs
    = Py.Ok (pre ++ report (omap (missing_entry fs) (Py.range 1 53)) ++ post) ∧
    length pre = 17%nat ∧ length post = 11%nat.
Proof.
  assert (H7 : card_id_to_filename 7 = Py.Ok "7_spades.png") by reflexivity.
  assert (H33 : card_id_to_filename 33 = Py.Ok "7_diamonds.png")
    by reflexivity.
  unfold main. cbv zeta.
  rewrite H7, bind_Ok, H33, bind_Ok, find_missing_omap, bind_Ok.
  match goal with
  | |- context [Py.for_each test_cards _ ((?a ++ ?b) ++ ?r ++ ?c)] =>
      destruct (for_each_spot_check fs test_cards ((a ++ b) ++ r ++ c))
        as (lines & Hrun & Hlen);
      [|exists (a ++ b), (c ++ lines)]
  end.
  { unfold test_cards. repeat (apply Forall_cons_2; [lia|]).
    apply Forall_nil_2. }
  rewrite Hrun. split; [by rewrite <- !app_assoc|].
  split; [reflexivity|]. rewrite length_app, Hlen. reflexivity.
Qed.

(** X3: [main] never raises; its output is seventeen lines, the summary
    of the exhaustive check and eleven more lines, and the summary is the
    line that all 52 cards are present exactly when they are. *)
Theorem main_reports (fs : gset string) :
  ∃ missing pre post,
    find_missing fs = Py.Ok missing ∧
    main fs = Py.Ok (pre ++ report missing ++ post) ∧
    length pre = 17%nat ∧ length post = 11%nat ∧
    (report missing = [Py.nl +:+ "✅ All 52 cards are present!"] ↔
     ∀ id filename,
       1 ≤ id ≤ 52 → card_id_to_filename id = Py.Ok filename →
       path_exists fs (Py.path_join cards_dir filename) = true) ∧
    (missing ≠ [] →
     report missing
     = (Py.nl +:+ "❌ Missing " +:+ Py.str (Z.of_nat (length missing))
          +:+ " cards:") :: (missing_line <$> missing)).
Proof.
  destruct (main_structure fs) as (pre & post & Hmain & Hpre & Hpost).
  exists (omap (missing_entry fs) (Py.range 1 53)), pre, post.
  split; [apply find_missing_omap|]. split_and!; [done..| |].
  - by rewrite report_all_present, omap_missing_nil.
  - by destruct (omap _ _).
Qed.

End verifier_more.

(** ** The pixels the slicer removes *)

Section pixels_more.
Import PIL Slice Analyze Spec.

Lemma background_bounds r g b :
  background r g b → g > r ∧ g > b ∧ r < 80 ∧ g < 180 ∧ b < 103.
Proof. unfold background, primary_rule, secondary_rule. lia. Qed.

Lemma remove_green_item_cases r g b a :
  remove_green_item (r, g, b, a) = (0, 0, 0, 0) ∨
  remove_green_item (r, g, b, a) = (r, g, b, a).
Proof.
  unfold remove_green_item.
  destruct (is_green r g b || is_dark_green r g b); [by left | by right].
Qed.

(** X4: a pixel that [remove_green_item] changes becomes [(0, 0, 0, 0)],
    and its green exceeds its red and its blue with red below 80, green
    below 180 and blue below 103; every pixel outside these bounds is
    returned as it is, alpha included. *)
Theorem only_dark_green_removed (r g b a : Z) :
  (remove_green_item (r, g, b, a) ≠ (r, g, b, a) →
   remove_green_item (r, g, b, a) = (0, 0, 0, 0) ∧
   g > r ∧ g > b ∧ r < 80 ∧ g < 180 ∧ b < 103) ∧
  (g ≤ r ∨ g ≤ b ∨ 80 ≤ r ∨ 180 ≤ g ∨ 103 ≤ b →
   remove_green_item (r, g, b, a) = (r, g, b, a)).
Proof.
  split.
  - intros Hne.
    destruct (is_green r g b || is_dark_green r g b) eqn:E.
    + apply background_test in E.
      split; [by apply remove_green_item_background|].
      by apply background_bounds.
    + destruct Hne. apply remove_green_item_other.
      rewrite <- background_test. congruence.
  - intros Hout. apply remove_green_item_other.
    intros Hbg%background_bounds. lia.
Qed.

(** X4 at the colour of the sheet's background and at a white pixel. *)
Lemma only_dark_green_removed_witness :
  (remove_green_item (17, 94, 63, 255) = (0, 0, 0, 0) ∧
   94 > 17 ∧ 94 > 63 ∧ 17 < 80 ∧ 94 < 180 ∧ 63 < 103) ∧
  remove_green_item (255, 255, 255, 255) = (255, 255, 255, 255).
Proof.
  split.
  - apply (proj1 (only_dark_green_removed 17 94 63 255)). discriminate.
  - apply (proj2 (only_dark_green_removed 255 255 255 255)). lia.
Defined.

(** X5: the slicer and the analyzer do not mean the same by green. What
    the dark green rule of the slicer removes the analyzer calls GREEN,
    and what the analyzer calls WHITE the slicer keeps; but the slicer
    removes [(50, 55, 50)], which the analyzer calls OTHER, and keeps
    [(100, 200, 100)], which the analyzer calls GREEN. *)
Theorem slicer_and_analyzer_greens :
  (∀ r g b a,
     is_dark_green r g b = true →
     color_type r g b = "GREEN" ∧
     remove_green_item (r, g, b, a) = (0, 0, 0, 0)) ∧
  (∀ r g b a,
     color_type r g b = "WHITE" →
     remove_green_item (r, g, b, a) = (r, g, b, a)) ∧
  (color_type 50 55 50 = "OTHER" ∧
   remove_green_item (50, 55, 50, 255) = (0, 0, 0, 0)) ∧
  (color_type 100 200 100 = "GREEN" ∧
   remove_green_item (100, 200, 100, 255) = (100, 200, 100, 255)).
Proof.
  split_and!; [| |done..].
  - intros r g b a Hdark. split.
    + apply is_dark_green_true in Hdark. unfold secondary_rule in Hdark.
      unfold color_type.
      replace (g >? r + 10) with true by (symmetry; apply Z.gtb_gt; lia).
      replace (g >? b + 5) with true by (symmetry; apply Z.gtb_gt; lia).
      done.
    + unfold remove_green_item. by rewrite Hdark, orb_true_r.
  - intros r g b a Hwhite. apply remove_green_item_other.
    intros Hbg%background_bounds.
    unfold color_type in Hwhite.
    destruct ((g >? r + 10) && (g >? b + 5)); [done|].
    destruct ((r >? 200) && (g >? 200) && (b >? 200)) eqn:E; [|done].
    rewrite !andb_true_iff, !Z.gtb_ltb, !Z.ltb_lt in E. lia.
Qed.

(** X5 at a shadowed green and at a white pixel. *)
Lemma slicer_and_analyzer_greens_witness :
  (color_type 10 60 20 = "GREEN" ∧
   remove_green_item (10, 60, 20, 255) = (0, 0, 0, 0)) ∧
  remove_green_item (250, 251, 252, 255) = (250, 251, 252, 255).
Proof.
  split.
  - apply (proj1 slicer_and_analyzer_greens 10 60 20 255). reflexivity.
  - apply (proj1 (proj2 slicer_and_analyzer_greens) 250 251 252 255).
    reflexivity.
Defined.

(** X6: the result of [remove_green_background] has the mode RGBA, the
    size and the number of pixels of its argument, and does not depend on
    [tolerance]; on an RGB image every pixel of the result is fully
    transparent or fully opaque. *)
Theorem remove_green_background_shape (img : image) (tolerance : Z) :
  im_mode (remove_green_background img tolerance) = RGBA ∧
  width (remove_green_background img tolerance) = width img ∧
  height (remove_green_background img tolerance) = height img ∧
  length (getdata (remove_green_background img tolerance))
    = length (getdata img) ∧
  (∀ tolerance',
     remove_green_background img tolerance'
     = remove_green_background img tolerance) ∧
  (im_mode img = RGB →
   Forall (λ p, alpha p = 0 ∨ alpha p = 255)
          (getdata (remove_green_background img tolerance))).
Proof.
  assert (Hc : width (convert img RGBA) = width img ∧
               height (convert img RGBA) = height img ∧
               length (getdata (convert img RGBA)) = length (getdata img)).
  { unfold convert. destruct (im_mode img); simpl;
      by rewrite ?length_fmap. }
  destruct Hc as (Hw & Hh & Hl).
  rewrite !remove_green_background_eq. cbn [im_mode width height getdata].
  rewrite length_fmap.
  split_and!; [done..| |].
  - intros tolerance'. by rewrite remove_green_background_eq.
  - intros Hrgb. unfold convert. rewrite Hrgb. cbn [getdata].
    rewrite <- list_fmap_compose. apply Forall_fmap, Forall_forall.
    intros [[[r g] b] a] _. unfold compose, opaque, alpha.
    destruct (remove_green_item_cases r g b 255) as [-> | ->];
      [by left | by right].
Qed.

End pixels_more.

(** ** Trimming on any image *)

Section trimming_more.
Import PIL Slice Spec Layout.

(** The box [getbbox] returns lies inside the image and is not empty. *)
Lemma getbbox_inside img x0 y0 x1 y1 :
  getbbox img = Some (x0, y0, x1, y1) →
  0 ≤ x0 < x1 ∧ x1 ≤ Z.of_nat (width img) ∧
  0 ≤ y0 < y1 ∧ y1 ≤ Z.of_nat (height img).
Proof.
  intros Hbb.
  destruct (getbbox_Some _ _ _ _ _ Hbb)
    as (Hin & [yl Hl] & [yr Hr] & [xu Hu] & [xd Hd]).
  pose proof (Hin _ _ Hl). pose proof (Hin _ _ Hu).
  apply elem_of_content_coords in Hl as (? & Hl%pixel_at_in_bounds & _).
  apply elem_of_content_coords in Hr as (? & Hr%pixel_at_in_bounds & _).
  apply elem_of_content_coords in Hu as (? & Hu%pixel_at_in_bounds & _).
  apply elem_of_content_coords in Hd as (? & Hd%pixel_at_in_bounds & _).
  lia.
Qed.

(** X7: trimming never raises, whatever the image; the result keeps the
    mode and is no wider and no taller than the image. *)
Theorem crop_transparent_borders_total (img : image) :
  ∃ img',
    crop_transparent_borders img = Py.Ok img' ∧
    im_mode img' = im_mode img ∧
    (width img' ≤ width img)%nat ∧ (height img' ≤ height img)%nat ∧
    (getbbox img = None → img' = img) ∧
    (is_Some (getbbox img) → (0 < width img')%nat ∧ (0 < height img')%nat).
Proof.
  unfold crop_transparent_borders.
  destruct (getbbox img) as [[[[x0 y0] x1] y1]|] eqn:Hbb.
  - destruct (getbbox_inside _ _ _ _ _ Hbb) as (Hx & Hx1 & Hy & Hy1).
    destruct (crop_Ok img x0 y0 x1 y1) as (img' & Hcrop & Hmode & Hsize);
      [lia..|].
    exists img'. unfold size in Hsize. injection Hsize as Hw Hh.
    split_and!; [done|done|lia|lia|done|]. intros _. lia.
  - exists img. split_and!; [done|done|lia|lia|done|]. by intros [? ?].
Qed.

Lemma crop_full img :
  well_formed img →
  crop img (0, 0, Z.of_nat (width img), Z.of_nat (height img)) = Py.Ok img.
Proof.
  intros Hwf. unfold crop.
  replace ((Z.of_nat (width img) <? 0) || (Z.of_nat (height img) <? 0))
    with false by (symmetry; rewrite orb_false_iff, !Z.ltb_ge; lia).
  rewrite !Z.sub_0_r, !Nat2Z.id.
  destruct img as [m w h data]. unfold well_formed in Hwf. simpl in *.
  do 2 f_equal. apply list_eq. intros i.
  destruct (decide (i < w * h)%nat) as [Hi|Hi].
  - assert (0 < w)%nat as Hw by nia.
    pose proof (Nat.div_mod i w ltac:(lia)) as Hdm.
    pose proof (Nat.mod_upper_bound i w ltac:(lia)) as Hmod.
    assert (i / w < h)%nat as Hdiv
      by (apply Nat.Div0.div_lt_upper_bound; lia).
    rewrite Hdm at 1.
    replace (w * (i / w) + i mod w)%nat with (i / w * w + i mod w)%nat
      by lia.
    rewrite lookup_rows; [|by intros; rewrite length_fmap, length_seqZ; lia|done].
    rewrite lookup_seqZ_lt by lia. simpl.
    rewrite list_lookup_fmap, lookup_seqZ_lt by lia. simpl.
    unfold pixel_at, in_bounds. simpl.
    replace ((0 <=? 0 + Z.of_nat (i mod w))
             && (0 + Z.of_nat (i mod w) <? Z.of_nat w)
             && (0 <=? 0 + Z.of_nat (i / w))
             && (0 + Z.of_nat (i / w) <? Z.of_nat h)) with true
      by (symmetry; rewrite !andb_true_iff, !Z.leb_le, !Z.ltb_lt; lia).
    replace (Z.to_nat ((0 + Z.of_nat (i / w)) * Z.of_nat w
                       + (0 + Z.of_nat (i mod w)))) with i by nia.
    destruct (lookup_lt_is_Some_2 data i) as [p Hp]; [lia|].
    by rewrite Hp.
  - rewrite (lookup_ge_None_2 data) by lia.
    apply lookup_ge_None_2.
    rewrite (length_rows _ _ w);
      [|by intros; rewrite length_fmap, length_seqZ; lia].
    rewrite length_seqZ. lia.
Qed.

Lemma visible_elem_of img x y :
  visible img x y → Exists (λ p, ¬ transparent p) (getdata img).
Proof.
  intros (p & Hp & Hnt). apply Exists_exists. exists p.
  split; [by eapply pixel_at_elem_of | done].
Qed.

(** In the crop to the bounding box, a visible pixel of the image is a
    visible pixel of the crop, at the shifted position. *)
Lemma region_visible img x0 y0 x1 y1 img' x y :
  region img (x0, y0, x1, y1) img' →
  x0 ≤ x < x1 → y0 ≤ y < y1 →
  visible img x y → visible img' (x - x0) (y - y0).
Proof.
  intros (_ & _ & Hpix) Hx Hy (p & Hp & Hnt).
  destruct (Hpix (x - x0) (y - y0)) as [_ Heq]; [lia..|].
  exists p. split; [|done]. rewrite Heq, <- Hp. f_equal; lia.
Qed.

(** X8: trimming leaves no transparent border and trimming again changes
    nothing. *)
Theorem crop_transparent_borders_tight (img img' : image) :
  im_mode img = RGBA → well_formed img →
  crop_transparent_borders img = Py.Ok img' →
  crop_transparent_borders img' = Py.Ok img' ∧
  (Exists (λ p, ¬ transparent p) (getdata img) →
   (∃ y, visible img' 0 y) ∧
   (∃ y, visible img' (Z.of_nat (width img') - 1) y) ∧
   (∃ x, visible img' x 0) ∧
   (∃ x, visible img' x (Z.of_nat (height img') - 1))).
Proof.
  intros Hm Hwf Htrim.
  destruct (decide (Forall transparent (getdata img))) as [Hall|Hex].
  - assert (Hnone : getbbox img = None) by by apply getbbox_transparent.
    unfold crop_transparent_borders in Htrim. rewrite Hnone in Htrim.
    injection Htrim as <-. split.
    + unfold crop_transparent_borders. by rewrite Hnone.
    + intros (p & Hp & Hnt)%Exists_exists.
      rewrite Forall_forall in Hall. destruct Hnt. by apply Hall.
  - apply not_Forall_Exists in Hex; [|apply _].
    destruct (getbbox_visible img Hm Hwf Hex)
      as ([[[x0 y0] x1] y1] & Hbb & Hbox).
    destruct (crop_bounding_box img _ Hwf Hbox) as (img'' & Hcrop & Hreg).
    unfold crop_transparent_borders in Htrim. rewrite Hbb, Hcrop in Htrim.
    injection Htrim as ->.
    destruct Hbox as (Hin & [yl Hl] & [yr Hr] & [xu Hu] & [xd Hd]).
    pose proof (Hin _ _ Hl) as [Hxl Hyl]. pose proof (Hin _ _ Hr) as [Hxr Hyr].
    pose proof (Hin _ _ Hu) as [Hxu Hyu]. pose proof (Hin _ _ Hd) as [Hxd Hyd].
    pose proof Hreg as (Hmode & Hsize & _).
    unfold size in Hsize. injection Hsize as Hw Hh.
    pose proof (region_visible _ _ _ _ _ _ _ _ Hreg Hxl Hyl Hl) as Hl'.
    pose proof (region_visible _ _ _ _ _ _ _ _ Hreg Hxr Hyr Hr) as Hr'.
    pose proof (region_visible _ _ _ _ _ _ _ _ Hreg Hxu Hyu Hu) as Hu'.
    pose proof (region_visible _ _ _ _ _ _ _ _ Hreg Hxd Hyd Hd) as Hd'.
    replace (x0 - x0) with 0 in Hl' by lia.
    replace (x1 - 1 - x0) with (Z.of_nat (width img') - 1) in Hr' by lia.
    replace (y0 - y0) with 0 in Hu' by lia.
    replace (y1 - 1 - y0) with (Z.of_nat (height img') - 1) in Hd' by lia.
    split; [|intros _; eauto 10].
    assert (Hwf' : well_formed img') by by eapply crop_well_formed.
    assert (Hm' : im_mode img' = RGBA) by congruence.
    destruct (getbbox_visible img' Hm' Hwf' (visible_elem_of _ _ _ Hl'))
      as ([[[a0 b0] a1] b1] & Hbb' & Hbox').
    destruct Hbox' as (Hin' & [? Hl2] & [? Hr2] & [? Hu2] & [? Hd2]).
    pose proof (Hin' _ _ Hl'). pose proof (Hin' _ _ Hr').
    pose proof (Hin' _ _ Hu'). pose proof (Hin' _ _ Hd').
    apply visible_in_bounds in Hl2, Hr2, Hu2, Hd2.
    assert (a0 = 0) as -> by lia.
    assert (b0 = 0) as -> by lia.
    assert (a1 = Z.of_nat (width img')) as -> by lia.
    assert (b1 = Z.of_nat (height img')) as -> by lia.
    unfold crop_transparent_borders. rewrite Hbb'. by apply crop_full.
Qed.

(** X8 on a 3x3 image with two visible pixels in its middle row. *)
Lemma crop_transparent_borders_tight_witness :
  let img :=
    Image RGBA 3 3 [(0, 0, 0, 0); (0, 0, 0, 0); (0, 0, 0, 0);
                    (0, 0, 0, 0); (1, 1, 1, 9); (2, 2, 2, 7);
                    (0, 0, 0, 0); (0, 0, 0, 0); (0, 0, 0, 0)] in
  let img' := Image RGBA 2 1 [(1, 1, 1, 9); (2, 2, 2, 7)] in
  crop_transparent_borders img' = Py.Ok img'.
Proof.
  intros img img'.
  apply (crop_transparent_borders_tight img img'); reflexivity.
Defined.

End trimming_more.

(** ** The rectangles of the cells *)

Section cell_geometry.
Import PIL Slice Spec Layout.

Lemma cell_card_cell_box sprite_sheet row col :
  cell_card sprite_sheet row col
  = (card ← crop sprite_sheet (cell_box row col);
     crop_transparent_borders (remove_green_background card 15)).
Proof. reflexivity. Qed.

Lemma pixel_at_fmap (f : pixel → pixel) m m' w h data x y :
  pixel_at (Image m' w h (f <$> data)) x y
  = f <$> pixel_at (Image m w h data) x y.
Proof.
  unfold pixel_at, in_bounds. cbn [width height getdata].
  destruct (_ && _); [|done]. apply list_lookup_fmap.
Qed.

Lemma pixel_at_mode m m' w h data x y :
  pixel_at (Image m' w h data) x y = pixel_at (Image m w h data) x y.
Proof. reflexivity. Qed.

Lemma pixel_at_remove_green_background img tolerance x y :
  pixel_at (remove_green_background img tolerance) x y
  = (λ p, remove_green_item
            match im_mode img with RGB => opaque p | RGBA => p end)
    <$> pixel_at img x y.
Proof.
  rewrite remove_green_background_eq.
  destruct img as [m w h data]. unfold convert. cbn [im_mode].
  destruct m; cbn [width height getdata].
  - rewrite (pixel_at_fmap _ RGB), (pixel_at_fmap _ RGB).
    by destruct (pixel_at _ x y).
  - rewrite (pixel_at_fmap _ RGBA). by destruct (pixel_at _ x y).
Qed.

(** X9: the image of a cell before trimming is an RGBA image of 428 by
    576 pixels; its pixel at [(x, y)] is the sheet's pixel at
    [(72 + 490 * col + x, 544 + 660 * row + y)], made opaque when the
    sheet has no alpha band, and then passed through [remove_green_item];
    where the rectangle leaves the sheet, the pixel is the fill of the
    sheet's mode. *)
Theorem cell_card_pixels (sprite_sheet : image) (row col : Z) :
  ∃ cell,
    cell_card sprite_sheet row col = crop_transparent_borders cell ∧
    im_mode cell = RGBA ∧ size cell = (428, 576) ∧
    ∀ x y, 0 ≤ x < 428 → 0 ≤ y < 576 →
      pixel_at cell x y
      = Some (remove_green_item
                (let p := default (fill (im_mode sprite_sheet))
                            (pixel_at sprite_sheet
                               (72 + 490 * col + x) (544 + 660 * row + y)) in
                 match im_mode sprite_sheet with
                 | RGB => opaque p
                 | RGBA => p
                 end)).
Proof.
  rewrite cell_card_cell_box. unfold cell_box. cbv zeta.
  destruct (crop_Ok sprite_sheet
              (FIRST_CARD_X + col * (CARD_WIDTH + H_GAP))
              (FIRST_CARD_Y + row * (CARD_HEIGHT + V_GAP))
              (FIRST_CARD_X + col * (CARD_WIDTH + H_GAP) + CARD_WIDTH)
              (FIRST_CARD_Y + row * (CARD_HEIGHT + V_GAP) + CARD_HEIGHT))
    as (card & Hcrop & Hmode & Hsize);
    [unfold CARD_WIDTH; lia | unfold CARD_HEIGHT; lia|].
  rewrite Hcrop, bind_Ok. exists (remove_green_background card 15).
  split; [done|].
  split; [apply remove_green_background_ready; by eapply crop_well_formed|].
  split.
  { rewrite remove_green_background_eq. unfold size in *.
    cbn [width height]. unfold convert.
    destruct (im_mode card); cbn [width height]; rewrite Hsize;
      unfold CARD_WIDTH, CARD_HEIGHT; f_equal; lia. }
  intros x y Hx Hy. rewrite pixel_at_remove_green_background.
  rewrite (pixel_at_crop _ _ _ _ _ _ _ _ Hcrop)
    by (unfold CARD_WIDTH, CARD_HEIGHT; lia).
  rewrite Hmode. cbn [fmap option_fmap option_map]. cbv zeta.
  replace (FIRST_CARD_X + col * (CARD_WIDTH + H_GAP) + x)
    with (72 + 490 * col + x)
    by (unfold FIRST_CARD_X, CARD_WIDTH, H_GAP; lia).
  replace (FIRST_CARD_Y + row * (CARD_HEIGHT + V_GAP) + y)
    with (544 + 660 * row + y)
    by (unfold FIRST_CARD_Y, CARD_HEIGHT, V_GAP; lia).
  reflexivity.
Qed.

(** X9 at cell (0, 0) of a plain sheet of 10 by 10 pixels. *)
Lemma cell_card_pixels_witness :
  let sheet := Image RGB 10 10 (replicate 100 (17, 94, 63, 255)) in
  ∃ cell,
    cell_card sheet 0 0 = crop_transparent_borders cell ∧
    pixel_at cell 0 0 = Some (0, 0, 0, 255).
Proof.
  intros sheet.
  destruct (cell_card_pixels sheet 0 0) as (cell & Hcell & _ & _ & Hpx).
  exists cell. split; [exact Hcell|].
  rewrite (Hpx 0 0) by lia. reflexivity.
Defined.

(** X10: the rectangles of two cells share no position unless the cells
    are the same, for every row and column; the rectangles of the 54 grid
    cells lie in columns 72 to 4419 and scanlines 544 to 4419 of the
    sheet. The rectangle of a cell is the one [slice_cards] crops. *)
Theorem cell_boxes_disjoint :
  (∀ sprite_sheet row col,
     cell_card sprite_sheet row col
     = (card ← crop sprite_sheet (cell_box row col);
        crop_transparent_borders (remove_green_background card 15))) ∧
  (∀ row col row' col' x y,
     inside (cell_box row col) x y → inside (cell_box row' col') x y →
     row = row' ∧ col = col') ∧
  (∀ row col x y,
     (row, col) ∈ grid_cells → inside (cell_box row col) x y →
     72 ≤ x < 4420 ∧ 544 ≤ y < 4420).
Proof.
  split; [intros; apply cell_card_cell_box|]. split.
  - intros row col row' col' x y. unfold inside, cell_box.
    unfold FIRST_CARD_X, FIRST_CARD_Y, CARD_WIDTH, CARD_HEIGHT, H_GAP, V_GAP.
    cbv zeta. lia.
  - intros row col x y Hin.
    apply elem_of_grid_cells in Hin. revert Hin.
    unfold inside, cell_box, ROWS, COLS.
    unfold FIRST_CARD_X, FIRST_CARD_Y, CARD_WIDTH, CARD_HEIGHT, H_GAP, V_GAP.
    cbv zeta. lia.
Qed.

(** X10 at the last grid cell. *)
Lemma cell_boxes_disjoint_witness :
  inside (cell_box 5 8) 4419 4419 ∧ (72 ≤ 4419 < 4420 ∧ 544 ≤ 4419 < 4420).
Proof.
  assert (Hin : inside (cell_box 5 8) 4419 4419).
  { unfold inside, cell_box.
    unfold FIRST_CARD_X, FIRST_CARD_Y, CARD_WIDTH, CARD_HEIGHT, H_GAP, V_GAP.
    cbv zeta. lia. }
  split; [exact Hin|].
  apply (proj2 (proj2 cell_boxes_disjoint) 5 8 4419 4419); [|exact Hin].
  apply elem_of_grid_cells. unfold ROWS, COLS. lia.
Defined.

End cell_geometry.

(** ** The files of a run *)

Section slicer_more.
Import PIL Slice Spec Layout.

Lemma writes_to_not_saved p tr : p ∉ saved_paths tr → writes_to p tr = [].
Proof.
  induction tr as [|e tr IH]; [done|].
  destruct e as [q|line|q img].
  - apply IH.
  - apply IH.
  - rewrite saved_paths_Save, writes_to_Save, not_elem_of_cons.
    intros [Hne Hnin]. destruct (decide (q = p)); [congruence|].
    by apply IH.
Qed.

Lemma writes_to_saved p tr :
  p ∈ saved_paths tr → is_Some (last (writes_to p tr)).
Proof.
  induction tr as [|e tr IH] using rev_ind.
  - by intros ?%elem_of_nil.
  - rewrite saved_paths_app, writes_to_app, elem_of_app.
    destruct e as [q|line|q img].
    + change (saved_paths [Makedirs q]) with (@nil string).
      change (writes_to p [Makedirs q]) with (@nil image).
      rewrite app_nil_r. intros [Hin|Hin%elem_of_nil]; [by apply IH | done].
    + change (saved_paths [Print line]) with (@nil string).
      change (writes_to p [Print line]) with (@nil image).
      rewrite app_nil_r. intros [Hin|Hin%elem_of_nil]; [by apply IH | done].
    + change (saved_paths [Save q img]) with [q].
      rewrite (writes_to_Save p q img []).
      change (writes_to p []) with (@nil image). rewrite app_nil_r.
      destruct (decide (q = p)) as [->|Hne].
      * intros _. rewrite last_snoc. eauto.
      * rewrite app_nil_r. intros [Hin|Hin%list_elem_of_singleton];
          [by apply IH | congruence].
Qed.

(** The sprite sheet is never one of the files a run writes. *)
Lemma output_path_not_input name : output_path name ≠ INPUT_IMAGE.
Proof.
  destruct (output_path_cases name) as [[-> [s ->]]|[-> _]]; discriminate.
Qed.

Lemma saved_paths_not_input seen infos :
  INPUT_IMAGE ∉ saved_paths (cell_events seen infos).
Proof.
  destruct (saved_paths_cell_events seen infos) as (names & -> & _ & _).
  intros (name & Heq & _)%list_elem_of_fmap.
  by apply (output_path_not_input name).
Qed.

Lemma slice_cards_on_input card_map fs1 fs2 :
  fs1 !! INPUT_IMAGE = fs2 !! INPUT_IMAGE →
  slice_cards_on card_map fs1 = slice_cards_on card_map fs2.
Proof. intros H. unfold slice_cards_on, open. by rewrite H. Qed.

Lemma files_after_twice tr fs :
  files_after tr (files_after tr fs) = files_after tr fs.
Proof.
  apply map_eq. intros p. rewrite !files_after_lookup.
  by destruct (last (writes_to p tr)).
Qed.

(** A run on a table that covers the grid, with its trace split. *)
Lemma slice_cards_on_run card_map fs sprite_sheet :
  fs !! INPUT_IMAGE = Some sprite_sheet → covers_grid card_map →
  ∃ tr infos,
    slice_cards_on card_map fs = Py.Ok tr ∧
    Forall2 (cell_info card_map sprite_sheet) grid_cells infos ∧
    saved_paths tr = saved_paths (cell_events ∅ infos) ∧
    Print ("✅ Successfully sliced "
           +:+ Py.str (Z.of_nat (length (saved_paths tr)))
           +:+ " unique cards!") ∈ tr.
Proof.
  intros Hfs Hcov.
  destruct (cell_infos_exist card_map sprite_sheet Hcov) as [infos Hinfos].
  destruct (slice_cards_on_trace card_map fs sprite_sheet infos Hfs Hinfos)
    as (header & footer & Hrun & Hsh & Hsf & _ & _ & _ & _ & Hcount).
  exists (header ++ cell_events ∅ infos ++ footer), infos.
  assert (Hsaved : saved_paths (header ++ cell_events ∅ infos ++ footer)
                   = saved_paths (cell_events ∅ infos))
    by by rewrite !saved_paths_app, Hsh, Hsf, app_nil_r.
  split_and!; [done..|].
  rewrite Hsaved. apply elem_of_app. right. apply elem_of_app. by right.
Qed.

(** X11: a run changes no file but those it saves, the sprite sheet is not
    among them, and a second run on the resulting files does the same
    again and changes nothing. *)
Theorem slice_cards_rerun
    (card_map : list (list string)) (fs : gmap string image)
    (sprite_sheet : image) :
  fs !! INPUT_IMAGE = Some sprite_sheet → covers_grid card_map →
  ∃ tr,
    slice_cards_on card_map fs = Py.Ok tr ∧
    (∀ p, p ∉ saved_paths tr → files_after tr fs !! p = fs !! p) ∧
    files_after tr fs !! INPUT_IMAGE = Some sprite_sheet ∧
    slice_cards_on card_map (files_after tr fs) = Py.Ok tr ∧
    files_after tr (files_after tr fs) = files_after tr fs.
Proof.
  intros Hfs Hcov.
  destruct (slice_cards_on_run card_map fs sprite_sheet Hfs Hcov)
    as (tr & infos & Hrun & _ & Hsaved & _).
  exists tr.
  assert (Hkeep : ∀ p, p ∉ saved_paths tr → files_after tr fs !! p = fs !! p).
  { intros p Hp. by rewrite files_after_lookup, writes_to_not_saved. }
  assert (Hin : files_after tr fs !! INPUT_IMAGE = Some sprite_sheet).
  { rewrite Hkeep; [done|]. rewrite Hsaved. apply saved_paths_not_input. }
  split_and!; [done..| |apply files_after_twice].
  rewrite <- Hrun. apply slice_cards_on_input. by rewrite Hin.
Qed.

(** X11 on the table of the script, with an empty sprite sheet. *)
Lemma slice_cards_rerun_witness :
  ∃ tr,
    slice_cards_on CARD_MAP {[INPUT_IMAGE := Image RGB 0 0 []]} = Py.Ok tr ∧
    (∀ p, p ∉ saved_paths tr →
          files_after tr {[INPUT_IMAGE := Image RGB 0 0 []]} !! p
          = ({[INPUT_IMAGE := Image RGB 0 0 []]} : gmap string image) !! p) ∧
    files_after tr {[INPUT_IMAGE := Image RGB 0 0 []]} !! INPUT_IMAGE
      = Some (Image RGB 0 0 []) ∧
    slice_cards_on CARD_MAP
      (files_after tr {[INPUT_IMAGE := Image RGB 0 0 []]}) = Py.Ok tr ∧
    files_after tr (files_after tr {[INPUT_IMAGE := Image RGB 0 0 []]})
      = files_after tr {[INPUT_IMAGE := Image RGB 0 0 []]}.
Proof.
  apply slice_cards_rerun.
  - apply lookup_singleton_eq.
  - split; [vm_compute; lia|]. vm_compute. repeat constructor.
Defined.


End slicer_more.

(** ** The counts a run reports *)

Section slicer_counts.
Import PIL Slice Spec Layout.

(** The two counts and the closing line in the trace of a run. *)
Lemma slice_cards_on_counts card_map fs sprite_sheet infos :
  fs !! INPUT_IMAGE = Some sprite_sheet →
  Forall2 (cell_info card_map sprite_sheet) grid_cells infos →
  ∃ tr,
    slice_cards_on card_map fs = Py.Ok tr ∧
    saved_paths tr = saved_paths (cell_events ∅ infos) ∧
    Print ("✅ Successfully sliced "
           +:+ Py.str (0 + Z.of_nat (length (saved_paths (cell_events ∅ infos))))
           +:+ " unique cards!") ∈ tr ∧
    Print (Py.nl +:+ "📊 Unique cards saved: "
           +:+ Py.str (Py.len_set (list_to_set infos.*1 ∪ ∅))) ∈ tr ∧
    Print (Py.nl +:+ "🎴 All 52 playing cards successfully extracted!") ∈ tr.
Proof.
  intros Hfs Hinfos. unfold slice_cards_on, open. rewrite Hfs, bind_Ok.
  unfold size. cbv zeta.
  rewrite slice_grid_cells, (for_each_cells _ _ _ _ _ Hinfos), bind_Ok.
  match goal with
  | |- context [foldl record_cell ?st0 infos] =>
      destruct (foldl_record_cell st0 infos) as (-> & -> & ->)
  end.
  cbn [trace seen_cards card_count].
  eexists. split; [reflexivity|]. split.
  { rewrite !saved_paths_app. cbn. by rewrite app_nil_r. }
  split_and!; apply elem_of_app; right.
  - apply list_elem_of_further, list_elem_of_here.
  - do 3 apply list_elem_of_further. apply list_elem_of_here.
  - do 4 apply list_elem_of_further. apply list_elem_of_here.
Qed.

Lemma length_grid_cells : length grid_cells = 54%nat.
Proof. reflexivity. Qed.

(** X13: the number of cards the run reports as sliced, the number of
    unique cards it reports and the number of files it wrote are the same
    number, the number of distinct names in the grid; the closing line
    about all 52 cards is printed whatever that number is. *)
Theorem slice_cards_counts
    (card_map : list (list string)) (fs : gmap string image)
    (sprite_sheet : image) :
  fs !! INPUT_IMAGE = Some sprite_sheet → covers_grid card_map →
  ∃ tr infos (n : nat),
    slice_cards_on card_map fs = Py.Ok tr ∧
    Forall2 (cell_info card_map sprite_sheet) grid_cells infos ∧
    length (saved_paths tr) = n ∧
    Py.len_set (list_to_set infos.*1) = Z.of_nat n ∧
    (1 ≤ n ≤ 54)%nat ∧
    Print ("✅ Successfully sliced " +:+ Py.str (Z.of_nat n)
           +:+ " unique cards!") ∈ tr ∧
    Print (Py.nl +:+ "📊 Unique cards saved: " +:+ Py.str (Z.of_nat n)) ∈ tr ∧
    Print (Py.nl +:+ "🎴 All 52 playing cards successfully extracted!") ∈ tr.
Proof.
  intros Hfs Hcov.
  destruct (cell_infos_exist card_map sprite_sheet Hcov) as [infos Hinfos].
  destruct (slice_cards_on_counts card_map fs sprite_sheet infos Hfs Hinfos)
    as (tr & Hrun & Hsaved & Hc1 & Hc2 & Hc3).
  destruct (saved_paths_cell_events ∅ infos) as (names & Hsp & Hnd & Hel).
  assert (Hlen : length (saved_paths tr) = length names)
    by by rewrite Hsaved, Hsp, length_fmap.
  assert (Hset : (list_to_set infos.*1 : gset string) = list_to_set names).
  { apply set_eq. intros n. rewrite !elem_of_list_to_set, Hel.
    split; [intros ?; split; [done | apply not_elem_of_empty] | by intros [? _]]. }
  assert (Hsize : Py.len_set (list_to_set infos.*1) = Z.of_nat (length names))
    by (unfold Py.len_set; by rewrite Hset, size_list_to_set).
  assert (Hinfos54 : length infos = 54%nat)
    by (rewrite <- (Forall2_length _ _ _ Hinfos); apply length_grid_cells).
  assert (Hle : (length names ≤ 54)%nat).
  { rewrite <- Hinfos54, <- (length_fmap fst infos).
    apply submseteq_length, NoDup_submseteq; [done|].
    intros n Hn. by apply Hel in Hn as [? _]. }
  assert (Hge : (1 ≤ length names)%nat).
  { destruct infos as [|[n c] infos]; [done|].
    assert (n ∈ names) as Hn.
    { apply Hel. split; [apply list_elem_of_here | apply not_elem_of_empty]. }
    destruct names; [by apply elem_of_nil in Hn | simpl; lia]. }
  exists tr, infos, (length names).
  split_and!; [done..| | |done].
  - by rewrite Hsp, length_fmap, Z.add_0_l in Hc1.
  - by rewrite (right_id_L ∅ (∪)), Hsize in Hc2.
Qed.

(** X13 on a table whose 54 cells all carry the same name. *)
Lemma slice_cards_counts_witness :
  ∃ tr infos (n : nat),
    slice_cards_on (replicate 6 (replicate 9 "A_spades"))
                   {[INPUT_IMAGE := Image RGB 0 0 []]} = Py.Ok tr ∧
    Forall2 (cell_info (replicate 6 (replicate 9 "A_spades"))
                       (Image RGB 0 0 []))
            grid_cells infos ∧
    length (saved_paths tr) = n ∧
    Py.len_set (list_to_set infos.*1) = Z.of_nat n ∧
    (1 ≤ n ≤ 54)%nat ∧
    Print ("✅ Successfully sliced " +:+ Py.str (Z.of_nat n)
           +:+ " unique cards!") ∈ tr ∧
    Print (Py.nl +:+ "📊 Unique cards saved: " +:+ Py.str (Z.of_nat n)) ∈ tr ∧
    Print (Py.nl +:+ "🎴 All 52 playing cards successfully extracted!") ∈ tr.
Proof.
  apply slice_cards_counts.
  - apply lookup_singleton_eq.
  - split; [vm_compute; lia|]. vm_compute. repeat constructor.
Defined.

End slicer_counts.

(** ** The verifier after the slicer *)

Section slicer_then_verifier.
Import PIL Slice Verify Spec Layout.

(** The file the verifier looks for, for each id, is one the table of the
    slicer names. *)
Lemma card_files_in_CARD_MAP id filename :
  1 ≤ id ≤ 52 → card_id_to_filename id = Py.Ok filename →
  Py.path_join cards_dir filename ∈ output_path <$> concat CARD_MAP.
Proof.
  intros Hid%range_1_53_elem Hf.
  set (check id :=
         match card_id_to_filename id with
         | Py.Ok f =>
             bool_decide (Py.path_join cards_dir f
                          ∈ output_path <$> concat CARD_MAP)
         | Py.Raise _ => true
         end).
  assert (Hall : forallb check (Py.range 1 53) = true)
    by (vm_compute; reflexivity).
  rewrite forallb_forall in Hall.
  specialize (Hall id (proj1 (list_elem_of_In _ _) Hid)).
  unfold check in Hall. rewrite Hf in Hall.
  by apply bool_decide_eq_true in Hall.
Qed.

Lemma slice_cards_saved_paths fs sprite_sheet :
  fs !! Slice.INPUT_IMAGE = Some sprite_sheet →
  ∃ tr, slice_cards fs = Py.Ok tr ∧
        saved_paths tr = output_path <$> concat CARD_MAP.
Proof.
  intros Hfs.
  destruct (slice_cards_on_run CARD_MAP fs sprite_sheet Hfs
              CARD_MAP_covers_grid) as (tr & infos & Hrun & Hinfos & Hsaved & _).
  exists tr. split; [done|]. rewrite Hsaved.
  pose proof (CARD_MAP_names _ _ Hinfos) as Hnames.
  rewrite saved_paths_distinct;
    [|rewrite Hnames; apply CARD_MAP_NoDup
     |intros n _; apply not_elem_of_empty].
  rewrite <- Hnames. clear.
  induction infos as [|[n c] infos IH]; [done|].
  rewrite bind_cons, saved_paths_app, IH. done.
Qed.

(** X14: after a run of the slicer the verifier finds every card: its
    exhaustive check collects nothing, and its summary is the line that
    all 52 cards are present. *)
Theorem verifier_accepts_sliced_cards
    (fs : gmap string image) (sprite_sheet : image) :
  fs !! Slice.INPUT_IMAGE = Some sprite_sheet →
  ∃ tr pre post,
    slice_cards fs = Py.Ok tr ∧
    find_missing (paths_of (files_after tr fs)) = Py.Ok [] ∧
    main (paths_of (files_after tr fs))
    = Py.Ok (pre ++ [Py.nl +:+ "✅ All 52 cards are present!"] ++ post).
Proof.
  intros Hfs.
  destruct (slice_cards_saved_paths fs sprite_sheet Hfs) as (tr & Hrun & Hsaved).
  assert (Hnil : omap (missing_entry (paths_of (files_after tr fs)))
                      (Py.range 1 53) = []).
  { apply omap_missing_nil. intros id filename Hid Hf.
    unfold path_exists, paths_of. apply bool_decide_eq_true, elem_of_dom.
    rewrite files_after_lookup.
    destruct (writes_to_saved (Py.path_join cards_dir filename) tr)
      as [img ->]; [|done].
    rewrite Hsaved. by apply (card_files_in_CARD_MAP id). }
  destruct (main_structure (paths_of (files_after tr fs)))
    as (pre & post & Hmain & _).
  exists tr, pre, post. rewrite Hnil in Hmain.
  split_and!; [done| |done]. by rewrite find_missing_omap, Hnil.
Qed.

(** X14 on a file system that holds an empty sprite sheet. *)
Lemma verifier_accepts_sliced_cards_witness :
  ∃ tr pre post,
    slice_cards {[Slice.INPUT_IMAGE := Image RGB 0 0 []]} = Py.Ok tr ∧
    find_missing
      (paths_of (files_after tr {[Slice.INPUT_IMAGE := Image RGB 0 0 []]}))
      = Py.Ok [] ∧
    main (paths_of (files_after tr {[Slice.INPUT_IMAGE := Image RGB 0 0 []]}))
    = Py.Ok (pre ++ [Py.nl +:+ "✅ All 52 cards are present!"] ++ post).
Proof.
  apply (verifier_accepts_sliced_cards _ (Image RGB 0 0 [])).
  apply lookup_singleton_eq.
Defined.

End slicer_then_verifier.

(** ** The analyzer on a missing or small sheet *)

Section analyzer_more.
Import PIL Analyze Spec Layout.

Lemma for_each_Ok_or_Raise {A S} (xs : list A)
    (body : A → S → Py.result S) (e : Py.exn) st :
  (∀ x st, (∃ st', body x st = Py.Ok st') ∨ body x st = Py.Raise e) →
  (∃ st', Py.for_each xs body st = Py.Ok st') ∨
  Py.for_each xs body st = Py.Raise e.
Proof.
  intros Hbody. revert st. induction xs as [|x xs IH]; intros st.
  - left. by exists st.
  - cbn [Py.for_each]. destruct (Hbody x st) as [[st' ->] | ->].
    + rewrite bind_Ok. apply IH.
    + by right.
Qed.

Lemma for_each_Raise {A S} (xs : list A)
    (body : A → S → Py.result S) (e : Py.exn) st :
  (∀ x st, (∃ st', body x st = Py.Ok st') ∨ body x st = Py.Raise e) →
  (∃ x, x ∈ xs ∧ ∀ st, body x st = Py.Raise e) →
  Py.for_each xs body st = Py.Raise e.
Proof.
  intros Hbody (x0 & Hin & Hx0). revert st.
  induction xs as [|x xs IH]; intros st; [by apply elem_of_nil in Hin|].
  cbn [Py.for_each]. apply elem_of_cons in Hin as [<-|Hin].
  - by rewrite Hx0.
  - destruct (Hbody x st) as [[st' ->] | ->]; [|done].
    rewrite bind_Ok. by apply IH.
Qed.

Lemma getpixel_Ok_or_IndexError img xy :
  (∃ p, getpixel img xy = Py.Ok p) ∨
  getpixel img xy = Py.Raise Py.IndexError.
Proof.
  destruct xy as [x y]. unfold getpixel.
  destruct (pixel_at img _ _) as [p|]; [left; by exists p | by right].
Qed.

Lemma getpixel_outside img x y :
  0 ≤ x → 0 ≤ y →
  Z.of_nat (width img) ≤ x ∨ Z.of_nat (height img) ≤ y →
  getpixel img (x, y) = Py.Raise Py.IndexError.
Proof.
  intros Hx Hy Hout. unfold getpixel.
  replace (x <? 0) with false by (symmetry; apply Z.ltb_ge; lia).
  replace (y <? 0) with false by (symmetry; apply Z.ltb_ge; lia).
  unfold pixel_at, in_bounds.
  replace ((0 <=? x) && (x <? Z.of_nat (width img)) && (0 <=? y)
           && (y <? Z.of_nat (height img))) with false; [done|].
  symmetry. rewrite !andb_false_iff, !Z.ltb_ge. lia.
Qed.

Lemma convert_RGB_size img :
  width (convert img RGB) = width img ∧
  height (convert img RGB) = height img.
Proof. unfold convert. by destruct (im_mode img). Qed.

(** The body of a scan loop returns or raises [IndexError]. *)
Lemma scan_body_Ok_or_IndexError img_rgb axis (pos : Z → Z * Z) x out :
  (∃ out',
     ('(r, g, b, _) ← getpixel img_rgb (pos x);
      Py.Ok (out ++ [sample_line axis x r g b])) = Py.Ok out') ∨
  ('(r, g, b, _) ← getpixel img_rgb (pos x);
   Py.Ok (out ++ [sample_line axis x r g b]))
  = (Py.Raise Py.IndexError : Py.result (list string)).
Proof.
  destruct (getpixel_Ok_or_IndexError img_rgb (pos x))
    as [[[[[r g] b] a] ->] | ->]; [left | by right].
  rewrite bind_Ok. eauto.
Qed.

(** X15: without the sprite sheet the analyzer raises
    [FileNotFoundError]; on a sheet narrower than 891 or lower than 1281
    pixels it raises [IndexError]. *)
Theorem analyze_sprite_sheet_raises (fs : gmap string image) :
  (fs !! Analyze.INPUT_IMAGE = None →
   analyze_sprite_sheet fs = Py.Raise Py.FileNotFoundError) ∧
  (∀ img,
     fs !! Analyze.INPUT_IMAGE = Some img →
     Z.of_nat (width img) ≤ 890 ∨ Z.of_nat (height img) ≤ 1280 →
     analyze_sprite_sheet fs = Py.Raise Py.IndexError).
Proof.
  split.
  { intros H. unfold analyze_sprite_sheet, open. by rewrite H. }
  intros img Hfs Hsmall.
  unfold analyze_sprite_sheet, open. rewrite Hfs, bind_Ok. cbv zeta.
  destruct (convert_RGB_size img) as [Hw Hh].
  change (Py.range_step 0 900 10) with ((λ k, 0 + 10 * k) <$> seqZ 0 90).
  change (Py.range_step 0 1300 20) with ((λ k, 0 + 20 * k) <$> seqZ 0 65).
  assert (Hx : ∀ x out,
    (∃ out',
       ('(r, g, b, _) ← getpixel (convert img RGB) (x, 700);
        Py.Ok (out ++ [sample_line "x" x r g b])) = Py.Ok out') ∨
    ('(r, g, b, _) ← getpixel (convert img RGB) (x, 700);
     Py.Ok (out ++ [sample_line "x" x r g b]))
    = (Py.Raise Py.IndexError : Py.result (list string))).
  { intros x out. apply (scan_body_Ok_or_IndexError _ "x" (λ x, (x, 700))). }
  assert (Hy : ∀ y out,
    (∃ out',
       ('(r, g, b, _) ← getpixel (convert img RGB) (225, y);
        Py.Ok (out ++ [sample_line "y" y r g b])) = Py.Ok out') ∨
    ('(r, g, b, _) ← getpixel (convert img RGB) (225, y);
     Py.Ok (out ++ [sample_line "y" y r g b]))
    = (Py.Raise Py.IndexError : Py.result (list string))).
  { intros y out. apply (scan_body_Ok_or_IndexError _ "y" (λ y, (225, y))). }
  destruct (decide (Z.of_nat (width img) ≤ 890 ∨ Z.of_nat (height img) ≤ 700))
    as [Hh1|Hh1].
  - erewrite for_each_Raise; [reflexivity | exact Hx |].
    exists 890. split.
    + apply list_elem_of_fmap. exists 89. split; [done|].
      apply elem_of_seqZ. lia.
    + intros out. rewrite getpixel_outside; [done|lia|lia|].
      rewrite Hw, Hh. lia.
  - match goal with
    | |- Py.for_each ?xs ?body ?out ≫= ?k = _ =>
        destruct (for_each_Ok_or_Raise xs body Py.IndexError out Hx)
          as [[out1 ->] | ->]; [|reflexivity]
    end.
    rewrite bind_Ok. apply for_each_Raise; [exact Hy|].
    exists 1280. split.
    + apply list_elem_of_fmap. exists 64. split; [done|].
      apply elem_of_seqZ. lia.
    + intros out. rewrite getpixel_outside; [done|lia|lia|].
      rewrite Hw, Hh. lia.
Qed.

(** X15 on a sheet of 800 by 600 pixels. *)
Lemma analyze_sprite_sheet_raises_witness :
  analyze_sprite_sheet
    {[Analyze.INPUT_IMAGE := Image RGB 800 600 (replicate (800 * 600) (0, 0, 0, 255))]}
  = Py.Raise Py.IndexError.
Proof.
  apply (proj2 (analyze_sprite_sheet_raises _)
           (Image RGB 800 600 (replicate (800 * 600) (0, 0, 0, 255)))).
  - apply lookup_singleton_eq.
  - left. simpl. lia.
Defined.

End analyzer_more.
